(** * radio.py: a remote controller for the IC-7100 over its CI-V serial link

    A shallow embedding of [radio.py] (Python 2) and the properties of its
    frame codec, its read loop and its controller operations.

    Conventions of the embedding:
    - a Python int is a [Z]; a Python 2 [str] is a [list byte];
    - a list built by the program is a [list pyval], whose items are ints or
      [None] (an unset [cmd_num] is appended as it is by [render]);
    - a method is a function in the state-and-exception monad [M] over the
      object it mutates; an exception leaves the state as it was when raised;
    - the serial port is the external collaborator: what each [read(1)] and
      each [write] does is given by a script indexed by the number of the call. *)

From Stdlib Require Import ZArith List String Ascii Strings.Byte Bool Lia QArith DecimalString.
Import ListNotations.
Open Scope Z_scope.

(** ** Python values, exceptions and outcomes *)

(** An item of a list, or the value of an attribute: [None] or an int. *)
Inductive pyval : Type :=
| PyNone
| PyInt (z : Z).

Coercion PyInt : Z >-> pyval.

Definition pyval_eqb (a b : pyval) : bool :=
  match a, b with
  | PyNone, PyNone => true
  | PyInt x, PyInt y => x =? y
  | _, _ => false
  end.

Fixpoint pylist_eqb (l m : list pyval) : bool :=
  match l, m with
  | [], [] => true
  | x :: l', y :: m' => pyval_eqb x y && pylist_eqb l' m'
  | _, _ => false
  end.

(** An operand of [==] and [!=]: an item or a list. *)
Inductive pyobj : Type :=
| Atom (v : pyval)
| Seq (l : list pyval).

(** Python's [==]: values of different types are never equal. *)
Definition py_eq (a b : pyobj) : bool :=
  match a, b with
  | Atom x, Atom y => pyval_eqb x y
  | Seq l, Seq m => pylist_eqb l m
  | _, _ => false
  end.

Definition py_ne (a b : pyobj) : bool := negb (py_eq a b).

(** The messages of the [ValueError]s the module can raise. *)
Inductive value_error : Type :=
| InvalidMemoryNumber (mem_num : Z)   (* 'Invalid memory number {0} requested' *)
| InvalidBankNumber (bank_num : Z)    (* 'Invalid bank number {0} requested' *)
| InvalidPreamble                     (* 'Invalid command preamble in: {0}' *)
| InvalidAddresses                    (* 'Invalid controller/transceiver addresses: {0}' *)
| ChrNotInRange                       (* chr() arg not in range(256) *)
| InvalidLiteral.                     (* invalid literal for int() *)

Inductive exn : Type :=
| ValueError (why : value_error)
| IndexError
| TypeError
| KeyError
| OverflowError
| SerialException.

Inductive outcome (A : Type) : Type :=
| Return (a : A)
| Raise (e : exn).

Arguments Return {A} a.
Arguments Raise {A} e.

(** State and exceptions: the state survives a raise. *)
Definition M (S A : Type) : Type := S -> outcome A * S.

Definition ret {S A : Type} (a : A) : M S A := fun s => (Return a, s).

Definition raise {S A : Type} (e : exn) : M S A := fun s => (Raise e, s).

Definition bind {S A B : Type} (m : M S A) (k : A -> M S B) : M S B :=
  fun s =>
    match m s with
    | (Return a, s') => k a s'
    | (Raise e, s') => (Raise e, s')
    end.

Definition pure {S A : Type} (o : outcome A) : M S A := fun s => (o, s).

(** Run a method of an attribute on the object that holds it. *)
Definition within {S T A : Type} (get : S -> T) (set : S -> T -> S)
  (m : M T A) : M S A :=
  fun s => let (o, t') := m (get s) in (o, set s t').

Declare Scope py_scope.
Delimit Scope py_scope with py.
Notation "x <- m ;; k" := (bind m (fun x => k))
  (at level 61, m at next level, right associativity) : py_scope.
Open Scope py_scope.

Definition obind {A B : Type} (o : outcome A) (k : A -> outcome B) : outcome B :=
  match o with
  | Return a => k a
  | Raise e => Raise e
  end.

(** ** Builtins *)

(** [l[i]] for [i >= 0]. *)
Definition index {A : Type} (l : list A) (i : nat) : outcome A :=
  match nth_error l i with
  | Some x => Return x
  | None => Raise IndexError
  end.

(** The bounds of a C [long], which [chr] converts its argument to: 64
    bits, as on the Linux hosts where the port is [/dev/ttyUSB0]. *)
Definition LONG_MIN : Z := - 2 ^ 63.
Definition LONG_MAX : Z := 2 ^ 63 - 1.

(** [chr(i)] of Python 2: an int that does not fit a C [long] is an
    [OverflowError], one that fits and is not in [range(256)] a
    [ValueError]. *)
Definition chr (i : pyval) : outcome byte :=
  match i with
  | PyNone => Raise TypeError
  | PyInt z =>
      if (z <? LONG_MIN) || (LONG_MAX <? z) then Raise OverflowError
      else if (0 <=? z) && (z <? 256) then
        match Byte.of_N (Z.to_N z) with
        | Some b => Return b
        | None => Raise (ValueError ChrNotInRange)
        end
      else Raise (ValueError ChrNotInRange)
  end.

(** [ord(c)] of a one-character [str]. *)
Definition ord (c : byte) : Z := Z.of_N (Byte.to_N c).

(** [hex(b)], kept for the exception it can raise; the text is only logged. *)
Definition hex (b : pyval) : outcome unit :=
  match b with
  | PyNone => Raise TypeError
  | PyInt _ => Return tt
  end.

(** [[f(x) for x in l]], left to right, stopping at the first raise. *)
Fixpoint comprehension {A B : Type} (f : A -> outcome B) (l : list A)
  : outcome (list B) :=
  match l with
  | [] => Return []
  | x :: l' => obind (f x) (fun y => obind (comprehension f l') (fun ys => Return (y :: ys)))
  end.

(** ['{0}'.format(n)] of an int. *)
Definition format_int (n : Z) : string := NilZero.string_of_int (Z.to_int n).

(** The value of a hexadecimal digit, in either case, from its code. *)
Definition hex_digit (c : ascii) : option Z :=
  let code := Z.of_N (N_of_ascii c) in
  if (48 <=? code) && (code <=? 57) then Some (code - 48)        (* 0-9 *)
  else if (97 <=? code) && (code <=? 102) then Some (code - 87)  (* a-f *)
  else if (65 <=? code) && (code <=? 70) then Some (code - 55)   (* A-F *)
  else None.

Fixpoint hex_digits (acc : Z) (s : string) : option Z :=
  match s with
  | EmptyString => Some acc
  | String c s' =>
      match hex_digit c with
      | Some d => hex_digits (16 * acc + d) s'
      | None => None
      end
  end.

(** [int('0x' + digits, 0)] for a [digits] without blanks, as produced by
    [format_int]: the hexadecimal literal is read, and anything that is not
    one or more hexadecimal digits is an invalid literal. *)
Definition int_0x (digits : string) : outcome Z :=
  match digits with
  | EmptyString => Raise (ValueError InvalidLiteral)
  | _ =>
      match hex_digits 0 digits with
      | Some z => Return z
      | None => Raise (ValueError InvalidLiteral)
      end
  end.

(** ** class Radio *)

Module Radio.

(** The float attributes are never computed with; they are kept as the
    decimal fractions of their literals. *)
Record t : Type := mk {
  frequency : Q;
  mode : string;
  memory_num : Z;
  memory_bank : Z;
  transmitting : bool;
  power_frac : Q;
  data_mode : bool;
  swr_meter : Z;
  signal_meter : Z;
  external_speaker_active : bool;
  backlight_frac : Q
}.

(** [Radio.__init__] *)
Definition init : t :=
  {| frequency := 146.960;
     mode := "VHF";
     memory_num := 1;
     memory_bank := 1;
     transmitting := false;
     power_frac := 0.05;
     data_mode := true;
     swr_meter := 0;
     signal_meter := 0;
     external_speaker_active := true;
     backlight_frac := 0.3 |}.

(** [self.data_mode = b] *)
Definition set_data_mode (r : t) (b : bool) : t :=
  {| frequency := frequency r;
     mode := mode r;
     memory_num := memory_num r;
     memory_bank := memory_bank r;
     transmitting := transmitting r;
     power_frac := power_frac r;
     data_mode := b;
     swr_meter := swr_meter r;
     signal_meter := signal_meter r;
     external_speaker_active := external_speaker_active r;
     backlight_frac := backlight_frac r |}.

End Radio.

(** ** class Command *)

Module Command.

Definition PREAMBLE : list pyval := [PyInt 0xFE; PyInt 0xFE].
Definition TRANSCEIVER_ADDRESS : list pyval := [PyInt 0x88].
Definition CONTROLLER_ADDRESS : list pyval := [PyInt 0xE0].
Definition END_OF_MSG : pyval := PyInt 0xFD.

Record t : Type := mk {
  cmd_num : pyval;
  subcmd_num : pyval;
  data : option (list pyval)
}.

(** [Command.__init__] *)
Definition init : t :=
  {| cmd_num := PyNone; subcmd_num := PyNone; data := None |}.

Definition set_num (self : t) (num : pyval) : t :=
  {| cmd_num := num; subcmd_num := subcmd_num self; data := data self |}.

Definition set_subcmd_num (self : t) (num : pyval) : t :=
  {| cmd_num := cmd_num self; subcmd_num := num; data := data self |}.

Definition set_data (self : t) (bcd_bytes : list pyval) : t :=
  {| cmd_num := cmd_num self; subcmd_num := subcmd_num self;
     data := Some bcd_bytes |}.

Definition render (self : t) : list pyval :=
  let cmd := PREAMBLE ++ TRANSCEIVER_ADDRESS ++ CONTROLLER_ADDRESS in
  let cmd := cmd ++ [cmd_num self] in
  let cmd :=
    match subcmd_num self with
    | PyNone => cmd
    | PyInt _ => cmd ++ [subcmd_num self]
    end in
  let cmd :=
    match data self with
    | None => cmd
    | Some d => cmd ++ d
    end in
  let cmd := cmd ++ [END_OF_MSG] in
  cmd.

End Command.

(** ** cmd_from_binary *)

(** The body of [cmd_from_binary], up to its last statement: the value of
    its local [cmd] there.  Each address test compares an item of
    [binary_string] with a class attribute that is a list. *)
Definition cmd_from_binary_local (binary_string : list pyval)
  : outcome Command.t :=
  let cmd := Command.init in
  if py_ne (Seq (firstn 2 binary_string)) (Seq Command.PREAMBLE) then
    Raise (ValueError InvalidPreamble)
  else
    obind (index binary_string 2) (fun b2 =>
    if py_ne (Atom b2) (Seq Command.CONTROLLER_ADDRESS) then
      Raise (ValueError InvalidAddresses)
    else
      obind (index binary_string 3) (fun b3 =>
      if py_ne (Atom b3) (Seq Command.TRANSCEIVER_ADDRESS) then
        Raise (ValueError InvalidAddresses)
      else
        obind (index binary_string 4) (fun b4 =>
        Return (Command.set_num cmd b4)))).

(** [cmd_from_binary] has no [return] statement: when it does not raise,
    its value is [None] and the local [cmd] is dropped. *)
Definition cmd_from_binary (binary_string : list pyval) : outcome pyval :=
  obind (cmd_from_binary_local binary_string) (fun _ => Return PyNone).

(** ** The serial port (pyserial's [Serial], opened with [timeout=0.1]) *)

Module Serial.

(** What one [read(1)] does: it returns one character, it returns the
    empty string when the timeout elapses, or it raises. *)
Inductive read_event : Type :=
| Got (c : byte)
| Silence
| ReadFailure.

Record t : Type := mk {
  rx_script : nat -> read_event;  (* what the n-th read(1) does *)
  rx_calls : nat;                 (* reads made so far *)
  tx_script : nat -> bool;        (* whether the n-th write succeeds *)
  tx_calls : nat;                 (* writes made so far *)
  tx_log : list byte              (* every byte written so far *)
}.

Definition write (data : list byte) : M t unit :=
  fun p =>
    if tx_script p (tx_calls p) then
      (Return tt,
       {| rx_script := rx_script p; rx_calls := rx_calls p;
          tx_script := tx_script p; tx_calls := S (tx_calls p);
          tx_log := (tx_log p ++ data)%list |})
    else
      (Raise SerialException,
       {| rx_script := rx_script p; rx_calls := rx_calls p;
          tx_script := tx_script p; tx_calls := S (tx_calls p);
          tx_log := tx_log p |}).

(** [read(1)]: [None] stands for the empty string. *)
Definition read1 : M t (option byte) :=
  fun p =>
    let p' := {| rx_script := rx_script p; rx_calls := S (rx_calls p);
                 tx_script := tx_script p; tx_calls := tx_calls p;
                 tx_log := tx_log p |} in
    match rx_script p (rx_calls p) with
    | Got c => (Return (Some c), p')
    | Silence => (Return None, p')
    | ReadFailure => (Raise SerialException, p')
    end.

End Serial.

(** ** class Connection *)

Module Connection.

Record t : Type := mk {
  BAUD : Z;
  PORT : string;
  _port : Serial.t
}.

(** [Connection()] followed by [connect()], on the line [line]. *)
Definition connect (line : Serial.t) : t :=
  {| BAUD := 9600; PORT := "/dev/ttyUSB0"; _port := line |}.

Definition set_port (self : t) (p : Serial.t) : t :=
  {| BAUD := BAUD self; PORT := PORT self; _port := p |}.

(** The [for i in range(...)] loop of [send_cmd]; [attempts] is the number
    of iterations left. *)
Fixpoint read_response (attempts : nat) (response : list Z)
  : M Serial.t (list Z) :=
  match attempts with
  | O => ret response
  | S attempts' =>
      char <- Serial.read1 ;;
      match char with
      | None => ret response
      | Some c =>
          let newbyte := ord c in
          let response := (response ++ [newbyte])%list in
          if newbyte =? 0xFD then ret response
          else read_response attempts' response
      end
  end.

Definition send_cmd (cmd : list pyval) : M t (list Z) :=
  _ <- pure (comprehension hex cmd) ;;
  chars <- pure (comprehension chr cmd) ;;
  _ <- within _port set_port (Serial.write chars) ;;
  response <- within _port set_port (read_response 500 []) ;;
  ret response.

End Connection.

(** ** class Controller *)

Module Controller.

Record t : Type := mk {
  connection : Connection.t;
  radio : Radio.t
}.

(** [Controller.__init__]: [radio or Radio()]. *)
Definition init (line : Serial.t) (radio : option Radio.t) : t :=
  {| connection := Connection.connect line;
     radio := match radio with Some r => r | None => Radio.init end |}.

Definition set_connection (self : t) (c : Connection.t) : t :=
  {| connection := c; radio := radio self |}.

Definition set_radio (self : t) (r : Radio.t) : t :=
  {| connection := connection self; radio := r |}.

(** [self.connection.send_cmd(cmd)] *)
Definition send (cmd : list pyval) : M t (list Z) :=
  within connection set_connection (Connection.send_cmd cmd).

(** The dict of [turn_on]. *)
Definition repeatedFEs : list (Z * Z) :=
  [(19200, 25); (9600, 13); (4800, 7); (1200, 3); (300, 2)].

Fixpoint getitem (d : list (Z * Z)) (key : Z) : outcome Z :=
  match d with
  | [] => Raise KeyError
  | (k, v) :: d' => if k =? key then Return v else getitem d' key
  end.

(** [[x] * n] *)
Definition times (x : pyval) (n : Z) : list pyval := repeat x (Z.to_nat n).

Definition turn_on : M t unit :=
  fun self =>
    (count <- pure (getitem repeatedFEs (Connection.BAUD (connection self))) ;;
     let on_cmd_pre := times (PyInt 0xFE) count in
     let on_cmd := Command.init in
     let on_cmd := Command.set_num on_cmd 0x18 in
     let on_cmd := Command.set_subcmd_num on_cmd 0x01 in
     _ <- send (on_cmd_pre ++ Command.render on_cmd) ;;
     ret tt) self.

Definition turn_off : M t unit :=
  let off_cmd := Command.init in
  let off_cmd := Command.set_num off_cmd 0x18 in
  let off_cmd := Command.set_subcmd_num off_cmd 0x0 in
  _ <- send (Command.render off_cmd) ;;
  ret tt.

Definition goto_mem (mem_num : Z) : M t unit :=
  if negb ((1 <=? mem_num) && (mem_num <=? 100)) then
    raise (ValueError (InvalidMemoryNumber mem_num))
  else
    let cmd := Command.init in
    let cmd := Command.set_num cmd 0x08 in
    mem_num_hex <- pure (int_0x (format_int mem_num)) ;;
    let cmd := Command.set_data cmd [PyInt mem_num_hex] in
    _ <- send (Command.render cmd) ;;
    ret tt.

Definition select_bank (bank_num : Z) : M t unit :=
  if negb ((1 <=? bank_num) && (bank_num <=? 6)) then
    raise (ValueError (InvalidBankNumber bank_num))
  else
    let cmd := Command.init in
    let cmd := Command.set_num cmd 0x08 in
    let cmd := Command.set_subcmd_num cmd 0xA0 in
    bank_num_hex <- pure (int_0x (format_int bank_num)) ;;
    let cmd := Command.set_data cmd [PyInt bank_num_hex] in
    bank_response <- send (Command.render cmd) ;;
    ret tt.

Definition rx : M t unit :=
  let cmd := Command.init in
  let cmd := Command.set_num cmd 0x1C in
  let cmd := Command.set_subcmd_num cmd 0x00 in
  let cmd := Command.set_data cmd [PyInt 0x00] in
  _ <- send (Command.render cmd) ;;
  ret tt.

Definition tx : M t unit :=
  let cmd := Command.init in
  let cmd := Command.set_num cmd 0x1C in
  let cmd := Command.set_subcmd_num cmd 0x00 in
  let cmd := Command.set_data cmd [PyInt 0x01] in
  _ <- send (Command.render cmd) ;;
  ret tt.

Definition data_mode_on : M t unit :=
  let cmd := Command.init in
  let cmd := Command.set_num cmd 0x1A in
  let cmd := Command.set_subcmd_num cmd 0x06 in
  let cmd := Command.set_data cmd [PyInt 0x01; PyInt 0x02] in
  _ <- send (Command.render cmd) ;;
  fun self => (Return tt, set_radio self (Radio.set_data_mode (radio self) true)).

Definition data_mode_off : M t unit :=
  let cmd := Command.init in
  let cmd := Command.set_num cmd 0x1A in
  let cmd := Command.set_subcmd_num cmd 0x06 in
  let cmd := Command.set_data cmd [PyInt 0x00; PyInt 0x00] in
  _ <- send (Command.render cmd) ;;
  fun self => (Return tt, set_radio self (Radio.set_data_mode (radio self) false)).

(** The operations of the controller, to speak of all of them at once. *)
Inductive operation : Type :=
| TurnOn
| TurnOff
| GotoMem (mem_num : Z)
| SelectBank (bank_num : Z)
| Rx
| Tx
| DataModeOn
| DataModeOff.

Definition perform (op : operation) : M t unit :=
  match op with
  | TurnOn => turn_on
  | TurnOff => turn_off
  | GotoMem n => goto_mem n
  | SelectBank n => select_bank n
  | Rx => rx
  | Tx => tx
  | DataModeOn => data_mode_on
  | DataModeOff => data_mode_off
  end.

End Controller.

(** ** Lines used in the examples *)

(** A line on which every write succeeds and every [read(1)] does [ev n]. *)
Definition line_of (ev : nat -> Serial.read_event) : Serial.t :=
  {| Serial.rx_script := ev; Serial.rx_calls := O;
     Serial.tx_script := fun _ => true; Serial.tx_calls := O;
     Serial.tx_log := [] |}.

(** The radio never answers. *)
Definition silent_line : Serial.t := line_of (fun _ => Serial.Silence).

(** The radio sends [0x00] for ever and never a terminator. *)
Definition babbling_line : Serial.t := line_of (fun _ => Serial.Got x00).

(** The radio answers with the bytes of [resp], then is silent. *)
Definition answering_line (resp : list byte) : Serial.t :=
  line_of (fun n => match nth_error resp n with
                    | Some c => Serial.Got c
                    | None => Serial.Silence
                    end).

(** Every write raises. *)
Definition dead_line : Serial.t :=
  {| Serial.rx_script := fun _ => Serial.Silence; Serial.rx_calls := O;
     Serial.tx_script := fun _ => false; Serial.tx_calls := O;
     Serial.tx_log := [] |}.

(** The acknowledgement [FE FE E0 88 FB FD] of the radio. *)
Definition ack : list byte := [xfe; xfe; xe0; x88; xfb; xfd].

Definition sent (c : Controller.t) : list byte :=
  Serial.tx_log (Connection._port (Controller.connection c)).

Definition reads (c : Controller.t) : nat :=
  Serial.rx_calls (Connection._port (Controller.connection c)).

(** ** Vocabulary of the statements *)

Definition port_of (c : Controller.t) : Serial.t :=
  Connection._port (Controller.connection c).

(** The next [write] on the port succeeds. *)
Definition next_write_ok (p : Serial.t) : bool :=
  Serial.tx_script p (Serial.tx_calls p).

(** None of the next [n] calls of [read(1)] raises. *)
Definition no_read_failure (p : Serial.t) (n : nat) : bool :=
  forallb (fun i => match Serial.rx_script p i with
                    | Serial.ReadFailure => false
                    | _ => true
                    end)
          (seq (Serial.rx_calls p) n).

Definition write_succeeds (c : Controller.t) : bool :=
  next_write_ok (port_of c).

Definition reads_succeed (c : Controller.t) : bool :=
  no_read_failure (port_of c) 500.

(** A read that ends the loop of [send_cmd]: a terminator, an empty read,
    or a raise. *)
Definition stops (ev : Serial.read_event) : bool :=
  match ev with
  | Serial.Got c => ord c =? 0xFD
  | Serial.Silence => true
  | Serial.ReadFailure => true
  end.

(** An outcome without its value. *)
Definition void {A : Type} (o : outcome A) : outcome unit :=
  match o with
  | Return _ => Return tt
  | Raise e => Raise e
  end.

(** What is left of a call whose value is dropped. *)
Definition dropped {S A : Type} (r : outcome A * S) : outcome unit * S :=
  (void (fst r), snd r).

(** Two BCD digits in one byte: the tens in the high nibble, the units in
    the low one. *)
Definition bcd (n : Z) : Z := 16 * (n / 10) + n mod 10.

(** A radio known to be transmitting: [Radio()] with [transmitting = True]. *)
Definition keyed_radio : Radio.t :=
  {| Radio.frequency := 146.960;
     Radio.mode := "VHF";
     Radio.memory_num := 1;
     Radio.memory_bank := 1;
     Radio.transmitting := true;
     Radio.power_frac := 0.05;
     Radio.data_mode := true;
     Radio.swr_meter := 0;
     Radio.signal_meter := 0;
     Radio.external_speaker_active := true;
     Radio.backlight_frac := 0.3 |}.

(** A frame given by its bytes. *)
Definition frame (bytes : list byte) : list pyval :=
  map (fun c => PyInt (ord c)) bytes.

(** The operations that assign [data_mode]. *)
Definition data_mode_op (op : Controller.operation) : bool :=
  match op with
  | Controller.DataModeOn | Controller.DataModeOff => true
  | _ => false
  end.

(** The three shapes of an operation, chosen by its arguments and the baud
    rate alone: it raises before sending, it sends one frame and drops the
    response, or it sends one frame and then sets [data_mode]. *)
Inductive shape (op : Controller.operation) (baud : Z) : Prop :=
| Refuses (e : exn)
    (H : forall c, Connection.BAUD (Controller.connection c) = baud ->
                   Controller.perform op c = (Raise e, c))
| Sends (bytes : list byte)
    (Hop : data_mode_op op = false)
    (H : forall c, Connection.BAUD (Controller.connection c) = baud ->
                   Controller.perform op c
                   = dropped (Controller.send (frame bytes) c))
| SendsAndSets (bytes : list byte) (b : bool)
    (Hop : op = (if b then Controller.DataModeOn else Controller.DataModeOff))
    (H : forall c,
           Controller.perform op c
           = match Controller.send (frame bytes) c with
             | (Return _, c') =>
                 (Return tt,
                  Controller.set_radio c'
                    (Radio.set_data_mode (Controller.radio c') b))
             | (Raise e, c') => (Raise e, c')
             end).

(** The outcomes of the next [n] calls of [read(1)]. *)
Definition upcoming (p : Serial.t) (n : nat) : list Serial.read_event :=
  map (Serial.rx_script p) (seq (Serial.rx_calls p) n).

(** The subcommand, when there is one, followed by the data, when there is
    some: the items [render] puts between [cmd_num] and the terminator. *)
Definition payload (cmd : Command.t) : list pyval :=
  (match Command.subcmd_num cmd with
   | PyNone => []
   | PyInt _ => [Command.subcmd_num cmd]
   end
   ++ match Command.data cmd with
      | None => []
      | Some d => d
      end)%list.

(** ** class Operator *)

Module Operator.

(** How a method of the operator ends: it returns, an exception of the
    controller or of [int] goes through it, or [raw_input] finds the end of
    the input.  [OutOfFuel] is the model's own: the loop of [operate] was
    cut short. *)
Inductive ending : Type :=
| Finished
| Raised (e : exn)
| EOFError
| OutOfFuel.

(** The operator with the lines its [raw_input] calls will read.  Its
    attribute [radio] is the very object [controller.radio]. *)
Record t : Type := mk {
  controller : Controller.t;
  stdin : list string
}.

(** [self.controller.m()] *)
Definition call {A : Type} (m : M Controller.t A) (self : t) : ending * t :=
  match m (controller self) with
  | (Return _, c) => (Finished, {| controller := c; stdin := stdin self |})
  | (Raise e, c) => (Raised e, {| controller := c; stdin := stdin self |})
  end.

(** [raw_input(prompt)]: the next line, [None] at the end of the input. *)
Definition raw_input (self : t) : option string * t :=
  match stdin self with
  | [] => (None, self)
  | line :: rest => (Some line, {| controller := controller self; stdin := rest |})
  end.

Definition transmit (self : t) : ending * t :=
  match call Controller.tx self with
  | (Finished, self) =>
      match raw_input self with
      | (None, self) => (EOFError, self)
      | (Some _, self) => call Controller.rx self
      end
  | (e, self) => (e, self)
  end.

(** [cmd[1:]] *)
Definition from_1 (cmd : string) : string :=
  match cmd with
  | EmptyString => EmptyString
  | String _ rest => rest
  end.

Section Operate.

(** [int(s)], whatever it does on each string. *)
Variable py_int : string -> outcome Z.

(** The [if]/[elif] chain of the loop of [operate]. *)
Definition dispatch (cmd : string) (self : t) : ending * t :=
  if String.eqb cmd "t" then transmit self
  else if String.prefix "m" cmd then
    match py_int (from_1 cmd) with
    | Return memory_number => call (Controller.goto_mem memory_number) self
    | Raise e => (Raised e, self)
    end
  else if String.eqb cmd "d" then
    if Radio.data_mode (Controller.radio (controller self))
    then call Controller.data_mode_off self
    else call Controller.data_mode_on self
  else (Finished, self).

(** [while cmd != 'q': ...], cut after [fuel] iterations. *)
Fixpoint loop (fuel : nat) (cmd : string) (self : t) : ending * t :=
  if String.eqb cmd "q" then (Finished, self)
  else
    match fuel with
    | O => (OutOfFuel, self)
    | S fuel' =>
        match raw_input self with
        | (None, self) => (EOFError, self)
        | (Some cmd, self) =>
            match dispatch cmd self with
            | (Finished, self) => loop fuel' cmd self
            | (e, self) => (e, self)
            end
        end
    end.

(** [operate] on the serial line [line], reading the lines [input]: each
    iteration reads a line, so one more iteration than there are lines is
    all the loop can make. *)
Definition operate (line : Serial.t) (input : list string) : ending * t :=
  loop (S (List.length input)) ""
       {| controller := Controller.init line None; stdin := input |}.

End Operate.

End Operator.

(** A command line that [operate] does nothing with. *)
Definition ignored (cmd : string) : bool :=
  negb (String.eqb cmd "q") && negb (String.eqb cmd "t")
  && negb (String.prefix "m" cmd) && negb (String.eqb cmd "d").

(** * Properties *)

(** ** Builtins *)

Lemma chr_ord (c : byte) : chr (PyInt (ord c)) = Return c.
Proof. destruct c; reflexivity. Qed.

Lemma long_bounds :
  LONG_MIN = -9223372036854775808 /\ LONG_MAX = 9223372036854775807.
Proof. split; reflexivity. Qed.

Ltac long_lia :=
  destruct long_bounds as [long_min_eq long_max_eq];
  rewrite ?long_min_eq, ?long_max_eq in *; lia.

Lemma fits_long (z : Z) :
  LONG_MIN <= z <= LONG_MAX -> (z <? LONG_MIN) || (LONG_MAX <? z) = false.
Proof.
  intros H. apply orb_false_iff. split; apply Z.ltb_ge; lia.
Qed.

Lemma chr_in_range (z : Z) :
  0 <= z < 256 -> exists c, chr (PyInt z) = Return c /\ ord c = z.
Proof.
  intros Hz. unfold chr, ord.
  rewrite fits_long by long_lia.
  replace ((0 <=? z) && (z <? 256)) with true
    by (symmetry; apply andb_true_iff; split;
        [apply Z.leb_le | apply Z.ltb_lt]; lia).
  destruct (Byte.of_N (Z.to_N z)) as [c|] eqn:E.
  - exists c. split; [reflexivity|].
    apply Byte.to_of_N in E. rewrite E. lia.
  - apply Byte.of_N_None_iff in E. lia.
Qed.

Lemma chr_out_of_range (z : Z) :
  LONG_MIN <= z <= LONG_MAX -> z < 0 \/ 256 <= z ->
  chr (PyInt z) = Raise (ValueError ChrNotInRange).
Proof.
  intros Hl Hz. unfold chr. rewrite (fits_long z Hl).
  destruct Hz as [Hz|Hz].
  - replace (0 <=? z) with false by (symmetry; apply Z.leb_gt; lia).
    reflexivity.
  - replace (z <? 256) with false by (symmetry; apply Z.ltb_ge; lia).
    rewrite andb_false_r. reflexivity.
Qed.

Lemma chr_overflow (z : Z) :
  z < LONG_MIN \/ LONG_MAX < z -> chr (PyInt z) = Raise OverflowError.
Proof.
  intros Hz. unfold chr.
  replace ((z <? LONG_MIN) || (LONG_MAX <? z)) with true; [reflexivity|].
  symmetry. apply orb_true_iff.
  destruct Hz; [left | right]; apply Z.ltb_lt; assumption.
Qed.

Lemma comprehension_chr_frame (bytes : list byte) :
  comprehension chr (frame bytes) = Return bytes.
Proof.
  induction bytes as [|c bytes IH]; [reflexivity|].
  change (frame (c :: bytes)) with (PyInt (ord c) :: frame bytes).
  cbn [comprehension]. rewrite chr_ord, IH. reflexivity.
Qed.

Lemma comprehension_hex_frame (bytes : list byte) :
  comprehension hex (frame bytes) = Return (map (fun _ => tt) bytes).
Proof.
  induction bytes as [|c bytes IH]; [reflexivity|].
  change (frame (c :: bytes)) with (PyInt (ord c) :: frame bytes).
  cbn [comprehension hex obind]. rewrite IH. reflexivity.
Qed.

(** ** The read loop *)

Lemma read_response_port (n : nat) :
  forall (acc : list Z) (p : Serial.t),
    let r := Connection.read_response n acc p in
    Serial.tx_log (snd r) = Serial.tx_log p
    /\ Serial.tx_calls (snd r) = Serial.tx_calls p
    /\ Serial.tx_script (snd r) = Serial.tx_script p
    /\ Serial.rx_script (snd r) = Serial.rx_script p
    /\ (Serial.rx_calls p <= Serial.rx_calls (snd r) <= Serial.rx_calls p + n)%nat.
Proof.
  induction n as [|n IH]; intros acc p; cbn zeta.
  - cbn. repeat split; lia.
  - cbn [Connection.read_response]. unfold bind, Serial.read1.
    destruct (Serial.rx_script p (Serial.rx_calls p)) as [c| |].
    + destruct (ord c =? 0xFD).
      * cbn. repeat split; lia.
      * match goal with
        | |- context [Connection.read_response n ?a ?q] =>
            specialize (IH a q); cbn zeta in IH; cbn in IH
        end.
        destruct IH as (H1 & H2 & H3 & H4 & H5).
        repeat split; try assumption; lia.
    + cbn. repeat split; lia.
    + cbn. repeat split; lia.
Qed.

Lemma read_response_returns (n : nat) :
  forall (acc : list Z) (p : Serial.t),
    no_read_failure p n = true ->
    exists resp, fst (Connection.read_response n acc p) = Return resp.
Proof.
  induction n as [|n IH]; intros acc p H.
  - exists acc. reflexivity.
  - unfold no_read_failure in H. cbn [seq forallb] in H.
    apply andb_true_iff in H. destruct H as [H0 H].
    cbn [Connection.read_response]. unfold bind, Serial.read1.
    destruct (Serial.rx_script p (Serial.rx_calls p)) as [c| |];
      try discriminate.
    + destruct (ord c =? 0xFD).
      * eexists. reflexivity.
      * apply IH. exact H.
    + exists acc. reflexivity.
Qed.

(** The loop makes [k] reads, where [k] is at most the number of attempts;
    the reads before the last one did not stop it, and when it ends before
    the attempts are used up the last read is one that stops it. *)
Lemma read_response_count (n : nat) :
  forall (acc : list Z) (p : Serial.t),
  exists k : nat,
    Serial.rx_calls (snd (Connection.read_response n acc p))
    = (Serial.rx_calls p + k)%nat
    /\ (k <= n)%nat
    /\ ((0 < n)%nat -> (0 < k)%nat)
    /\ (forall i : nat, (S i < k)%nat ->
          stops (Serial.rx_script p (Serial.rx_calls p + i)%nat) = false)
    /\ ((k < n)%nat ->
          stops (Serial.rx_script p (Serial.rx_calls p + (k - 1))%nat) = true).
Proof.
  induction n as [|n IH]; intros acc p.
  - exists O. cbn. repeat split; try lia.
  - cbn [Connection.read_response]. unfold bind, Serial.read1.
    destruct (Serial.rx_script p (Serial.rx_calls p)) as [c| |] eqn:Ev.
    + destruct (ord c =? 0xFD) eqn:Efd.
      * exists 1%nat. cbn. repeat split; try lia.
        intros _. replace (Serial.rx_calls p + 0)%nat with (Serial.rx_calls p) by lia.
        rewrite Ev. exact Efd.
      * match goal with
        | |- context [Connection.read_response n ?a ?q] =>
            destruct (IH a q) as (k & Hk & Hle & Hpos & Hbefore & Hlast)
        end.
        cbn in Hk, Hbefore, Hlast.
        exists (S k). repeat split; try lia.
        -- intros [|i] Hi.
           ++ replace (Serial.rx_calls p + 0)%nat with (Serial.rx_calls p) by lia.
              rewrite Ev. exact Efd.
           ++ replace (Serial.rx_calls p + S i)%nat
                with (S (Serial.rx_calls p + i)) by lia.
              apply Hbefore. lia.
        -- intros Hlt.
           assert (Hk0 : (0 < k)%nat) by (apply Hpos; lia).
           replace (Serial.rx_calls p + (S k - 1))%nat
             with (S (Serial.rx_calls p + (k - 1))) by lia.
           apply Hlast. lia.
    + exists 1%nat. cbn. repeat split; try lia.
      intros _. replace (Serial.rx_calls p + 0)%nat with (Serial.rx_calls p) by lia.
      rewrite Ev. reflexivity.
    + exists 1%nat. cbn. repeat split; try lia.
      intros _. replace (Serial.rx_calls p + 0)%nat with (Serial.rx_calls p) by lia.
      rewrite Ev. reflexivity.
Qed.

(** The only exception of the loop is the one of [read(1)]. *)
Lemma read_response_raises (n : nat) :
  forall (acc : list Z) (p : Serial.t) (e : exn),
    fst (Connection.read_response n acc p) = Raise e -> e = SerialException.
Proof.
  induction n as [|n IH]; intros acc p e; cbn [Connection.read_response].
  - intros [=].
  - unfold bind, Serial.read1.
    destruct (Serial.rx_script p (Serial.rx_calls p)) as [c| |].
    + destruct (ord c =? 0xFD); [intros [=] | apply IH].
    + intros [=].
    + intros [= <-]. reflexivity.
Qed.

(** ** send_cmd *)

(** Sending a frame of bytes: the radio and the baud rate are not touched;
    when the write succeeds the bytes are appended to what was written and,
    if no read raises, the call returns; when the write fails nothing is
    written or read. *)
Lemma send_frame (bytes : list byte) (c : Controller.t) :
  let r := Controller.send (frame bytes) c in
  Controller.radio (snd r) = Controller.radio c
  /\ Connection.BAUD (Controller.connection (snd r))
     = Connection.BAUD (Controller.connection c)
  /\ (reads c <= reads (snd r) <= reads c + 500)%nat
  /\ (if write_succeeds c then
        sent (snd r) = (sent c ++ bytes)%list
        /\ (reads_succeed c = true -> exists resp, fst r = Return resp)
        /\ (forall e, fst r = Raise e -> e = SerialException)
      else
        fst r = Raise SerialException
        /\ sent (snd r) = sent c
        /\ reads (snd r) = reads c).
Proof.
  cbn zeta.
  unfold Controller.send, Connection.send_cmd, within, bind, pure, ret.
  rewrite comprehension_hex_frame, comprehension_chr_frame.
  unfold write_succeeds, reads_succeed, next_write_ok, sent, reads, port_of.
  destruct c as [[baud name p] r]. cbn [Controller.connection Controller.radio
    Connection._port Connection.BAUD Connection.set_port
    Controller.set_connection fst snd].
  unfold Serial.write.
  destruct (Serial.tx_script p (Serial.tx_calls p)) eqn:Ew.
  - cbn [Connection._port Connection.set_port fst snd].
    match goal with
    | |- context [Connection.read_response 500 [] ?q] =>
        pose proof (read_response_port 500 [] q) as Hp;
        pose proof (read_response_returns 500 [] q) as Hr;
        pose proof (read_response_raises 500 [] q) as He;
        destruct (Connection.read_response 500 [] q) as [o q'] eqn:Eq
    end.
    cbn in Hp. destruct Hp as (H1 & H2 & H3 & H4 & H5).
    unfold no_read_failure in Hr. cbn [Serial.rx_script Serial.rx_calls fst] in Hr.
    cbn [fst] in He.
    destruct o as [resp|e]; cbn; repeat split; try assumption; try lia.
    all: first [ intros _; eexists; reflexivity
               | intros e' [=]; subst; apply He; reflexivity
               | intros e' [=] ].
  - cbn. repeat split; lia.
Qed.

Lemma bind_dropped {S A : Type} (m : M S A) (s : S) :
  (_ <- m ;; ret tt) s = dropped (m s).
Proof.
  unfold bind, dropped, ret. destruct (m s) as [[a|e] s']; reflexivity.
Qed.

(** An operation that sends one frame of bytes and drops the response. *)
Lemma dropped_send_frame (bytes : list byte) (c : Controller.t) :
  let r := dropped (Controller.send (frame bytes) c) in
  Controller.radio (snd r) = Controller.radio c
  /\ (write_succeeds c = true ->
        sent (snd r) = (sent c ++ bytes)%list
        /\ (reads_succeed c = true -> fst r = Return tt))
  /\ (write_succeeds c = false ->
        fst r = Raise SerialException /\ sent (snd r) = sent c).
Proof.
  cbn zeta. unfold dropped. cbn [fst snd].
  destruct (send_frame bytes c) as (Hradio & _ & _ & Hw).
  split; [exact Hradio|].
  destruct (write_succeeds c).
  - destruct Hw as (Hsent & Hret & _). split; [|discriminate].
    intros _. split; [exact Hsent|].
    intros Hr. destruct (Hret Hr) as [resp ->]. reflexivity.
  - destruct Hw as (Hraise & Hsent & _). split; [discriminate|].
    intros _. rewrite Hraise. split; [reflexivity | exact Hsent].
Qed.

(** ** The frames of the operations *)

Lemma turn_off_sends (c : Controller.t) :
  Controller.turn_off c
  = dropped (Controller.send (frame [xfe; xfe; x88; xe0; x18; x00; xfd]) c).
Proof. exact (bind_dropped _ c). Qed.

Lemma rx_sends (c : Controller.t) :
  Controller.rx c
  = dropped (Controller.send (frame [xfe; xfe; x88; xe0; x1c; x00; x00; xfd]) c).
Proof. exact (bind_dropped _ c). Qed.

Lemma tx_sends (c : Controller.t) :
  Controller.tx c
  = dropped (Controller.send (frame [xfe; xfe; x88; xe0; x1c; x00; x01; xfd]) c).
Proof. exact (bind_dropped _ c). Qed.

Lemma turn_on_sends (c : Controller.t) (count : Z) :
  Controller.getitem Controller.repeatedFEs
    (Connection.BAUD (Controller.connection c)) = Return count ->
  Controller.turn_on c
  = dropped (Controller.send
               (frame (repeat xfe (Z.to_nat count)
                       ++ [xfe; xfe; x88; xe0; x18; x01; xfd])) c).
Proof.
  intros H. unfold Controller.turn_on.
  unfold bind at 1. unfold pure. rewrite H.
  rewrite bind_dropped. do 2 f_equal.
  unfold frame. rewrite map_app. f_equal.
  unfold Controller.times. induction (Z.to_nat count) as [|k IH];
    [reflexivity | cbn [repeat map]; rewrite IH; reflexivity].
Qed.

Lemma turn_on_unknown_baud (c : Controller.t) (e : exn) :
  Controller.getitem Controller.repeatedFEs
    (Connection.BAUD (Controller.connection c)) = Raise e ->
  Controller.turn_on c = (Raise e, c).
Proof.
  intros H. unfold Controller.turn_on, bind, pure. rewrite H. reflexivity.
Qed.

Lemma goto_mem_rejects (mem_num : Z) (c : Controller.t) :
  ~ (1 <= mem_num <= 100) ->
  Controller.goto_mem mem_num c
  = (Raise (ValueError (InvalidMemoryNumber mem_num)), c).
Proof.
  intros H. unfold Controller.goto_mem.
  destruct ((1 <=? mem_num) && (mem_num <=? 100)) eqn:E; [|reflexivity].
  apply andb_true_iff in E. destruct E as [E1 E2].
  apply Z.leb_le in E1, E2. lia.
Qed.

Lemma goto_mem_sends (mem_num z : Z) (b : byte) (c : Controller.t) :
  1 <= mem_num <= 100 ->
  int_0x (format_int mem_num) = Return z ->
  ord b = z ->
  Controller.goto_mem mem_num c
  = dropped (Controller.send (frame [xfe; xfe; x88; xe0; x08; b; xfd]) c).
Proof.
  intros H Hz Hb. unfold Controller.goto_mem.
  replace ((1 <=? mem_num) && (mem_num <=? 100)) with true
    by (symmetry; apply andb_true_iff; split; apply Z.leb_le; lia).
  cbn [negb]. unfold bind at 1. unfold pure. rewrite Hz, <- Hb.
  exact (bind_dropped _ c).
Qed.

Lemma goto_mem_unencodable (mem_num z : Z) (c : Controller.t) :
  1 <= mem_num <= 100 ->
  int_0x (format_int mem_num) = Return z ->
  256 <= z <= LONG_MAX ->
  Controller.goto_mem mem_num c = (Raise (ValueError ChrNotInRange), c).
Proof.
  intros H Hz Hbig. unfold Controller.goto_mem.
  replace ((1 <=? mem_num) && (mem_num <=? 100)) with true
    by (symmetry; apply andb_true_iff; split; apply Z.leb_le; lia).
  cbn [negb]. unfold bind at 1. unfold pure. rewrite Hz.
  rewrite bind_dropped. unfold dropped, Controller.send, within,
    Connection.send_cmd, bind, pure.
  cbn [Command.render Command.init Command.set_num Command.set_data
       Command.cmd_num Command.subcmd_num Command.data app
       Command.PREAMBLE Command.TRANSCEIVER_ADDRESS Command.CONTROLLER_ADDRESS
       Command.END_OF_MSG comprehension hex obind].
  rewrite (chr_out_of_range z) by long_lia.
  cbn. destruct c as [[baud name p] r]. reflexivity.
Qed.

Lemma select_bank_rejects (bank_num : Z) (c : Controller.t) :
  ~ (1 <= bank_num <= 6) ->
  Controller.select_bank bank_num c
  = (Raise (ValueError (InvalidBankNumber bank_num)), c).
Proof.
  intros H. unfold Controller.select_bank.
  destruct ((1 <=? bank_num) && (bank_num <=? 6)) eqn:E; [|reflexivity].
  apply andb_true_iff in E. destruct E as [E1 E2].
  apply Z.leb_le in E1, E2. lia.
Qed.

Lemma select_bank_sends (bank_num : Z) (b : byte) (c : Controller.t) :
  1 <= bank_num <= 6 ->
  ord b = bank_num ->
  Controller.select_bank bank_num c
  = dropped (Controller.send (frame [xfe; xfe; x88; xe0; x08; xa0; b; xfd]) c).
Proof.
  intros H Hb. unfold Controller.select_bank.
  replace ((1 <=? bank_num) && (bank_num <=? 6)) with true
    by (symmetry; apply andb_true_iff; split; apply Z.leb_le; lia).
  cbn [negb].
  assert (Hz : int_0x (format_int bank_num) = Return bank_num).
  { assert (Hc : bank_num = 1 \/ bank_num = 2 \/ bank_num = 3 \/ bank_num = 4
                 \/ bank_num = 5 \/ bank_num = 6) by lia.
    destruct Hc as [->|[->|[->|[->|[->| ->]]]]]; reflexivity. }
  unfold bind at 1. unfold pure. rewrite Hz, <- Hb.
  exact (bind_dropped _ c).
Qed.

Lemma data_mode_on_sends (c : Controller.t) :
  Controller.data_mode_on c
  = match Controller.send
            (frame [xfe; xfe; x88; xe0; x1a; x06; x01; x02; xfd]) c with
    | (Return _, c') =>
        (Return tt,
         Controller.set_radio c' (Radio.set_data_mode (Controller.radio c') true))
    | (Raise e, c') => (Raise e, c')
    end.
Proof. reflexivity. Qed.

Lemma data_mode_off_sends (c : Controller.t) :
  Controller.data_mode_off c
  = match Controller.send
            (frame [xfe; xfe; x88; xe0; x1a; x06; x00; x00; xfd]) c with
    | (Return _, c') =>
        (Return tt,
         Controller.set_radio c' (Radio.set_data_mode (Controller.radio c') false))
    | (Raise e, c') => (Raise e, c')
    end.
Proof. reflexivity. Qed.

(** ** The memory number read as a hexadecimal literal *)

Lemma int_0x_two_digits (n : Z) :
  1 <= n <= 99 -> int_0x (format_int n) = Return (bcd n).
Proof.
  intros H.
  assert (Hall : forallb
            (fun k => match int_0x (format_int k) with
                      | Return z => z =? bcd k
                      | Raise _ => false
                      end)
            (map Z.of_nat (seq 1 99)) = true) by (vm_compute; reflexivity).
  rewrite forallb_forall in Hall.
  specialize (Hall n).
  destruct (int_0x (format_int n)) as [z|e].
  - f_equal. apply Z.eqb_eq. apply Hall.
    apply in_map_iff. exists (Z.to_nat n). split; [lia|].
    apply in_seq. lia.
  - assert (false = true); [|discriminate].
    apply Hall. apply in_map_iff. exists (Z.to_nat n). split; [lia|].
    apply in_seq. lia.
Qed.

Lemma bcd_nibbles (n : Z) :
  0 <= n <= 99 ->
  0 <= bcd n < 256 /\ bcd n / 16 = n / 10 /\ (bcd n) mod 16 = n mod 10.
Proof.
  intros H. unfold bcd.
  assert (H0 : n / 10 < 10) by (apply Z.div_lt_upper_bound; lia).
  assert (H1 : 0 <= n / 10) by (apply Z.div_pos; lia).
  assert (H2 : 0 <= n mod 10 < 10) by (apply Z.mod_pos_bound; lia).
  split; [lia|].
  split.
  - rewrite Z.mul_comm, Z.div_add_l by lia.
    rewrite (Z.div_small (n mod 10) 16) by lia. lia.
  - rewrite Z.add_comm, Z.mul_comm, Z.mod_add by lia.
    apply Z.mod_small. lia.
Qed.

(** * The claims *)

(** ** Memory numbers (C2, C10) *)

(** The memory numbers 0, 101 and 1: [goto_mem(0)] and [goto_mem(101)]
    raise the invalid-memory-number [ValueError] and leave the controller,
    hence the port, exactly as it was: nothing is written.  [goto_mem(1)]
    writes exactly [FE FE 88 E0 08 01 FD] when the write succeeds, and
    returns when no read raises. *)
Lemma goto_mem_range (c : Controller.t) :
  Controller.goto_mem 0 c = (Raise (ValueError (InvalidMemoryNumber 0)), c)
  /\ Controller.goto_mem 101 c
     = (Raise (ValueError (InvalidMemoryNumber 101)), c)
  /\ (write_succeeds c = true ->
        sent (snd (Controller.goto_mem 1 c))
        = (sent c ++ [xfe; xfe; x88; xe0; x08; x01; xfd])%list
        /\ (reads_succeed c = true ->
              fst (Controller.goto_mem 1 c) = Return tt)).
Proof.
  split; [apply goto_mem_rejects; lia|].
  split; [apply goto_mem_rejects; lia|].
  intros Hw.
  rewrite (goto_mem_sends 1 1 x01 c) by (reflexivity || lia).
  destruct (dropped_send_frame [xfe; xfe; x88; xe0; x08; x01; xfd] c)
    as (_ & Hok & _).
  exact (Hok Hw).
Qed.

Lemma goto_mem_range_witness :
  let c := Controller.init (answering_line ack) None in
  sent (snd (Controller.goto_mem 1 c)) = [xfe; xfe; x88; xe0; x08; x01; xfd]
  /\ fst (Controller.goto_mem 1 c) = Return tt.
Proof.
  cbn zeta.
  destruct (goto_mem_range (Controller.init (answering_line ack) None))
    as (_ & _ & H).
  destruct (H eq_refl) as [Hsent Hret].
  split; [exact Hsent | exact (Hret eq_refl)].
Defined.

(** C2, on the code.  [goto_mem(100)] does not succeed and sends no frame:
    the guard [1 <= mem_num <= 100] lets 100 through, the decimal text [100]
    read as the hexadecimal literal [0x100] is 256, and [chr(256)] raises
    [ValueError] before anything is written. *)
Theorem goto_mem_100_not_sent :
  let r := Controller.goto_mem 100 (Controller.init (answering_line ack) None) in
  fst r = Raise (ValueError ChrNotInRange)
  /\ sent (snd r) = []
  /\ ~ (fst r = Return tt
        /\ sent (snd r) = [xfe; xfe; x88; xe0; x08; x64; xfd]).
Proof.
  cbn zeta.
  rewrite (goto_mem_unencodable 100 256) by (reflexivity || lia || long_lia).
  cbn [fst snd]. repeat split.
  intros [H _]. discriminate H.
Qed.

(** C10.  For [1 <= n <= 99] the data byte of [goto_mem] is the decimal
    text of [n] read as a hexadecimal literal: one byte whose high nibble is
    the tens digit of [n] and whose low nibble is its units digit; the frame
    written is [FE FE 88 E0 08 <byte> FD]. *)
Theorem goto_mem_bcd_byte (n : Z) (c : Controller.t) :
  1 <= n <= 99 ->
  exists b : byte,
    int_0x (format_int n) = Return (ord b)
    /\ ord b / 16 = n / 10
    /\ (ord b) mod 16 = n mod 10
    /\ (write_succeeds c = true ->
          sent (snd (Controller.goto_mem n c))
          = (sent c ++ [xfe; xfe; x88; xe0; x08; b; xfd])%list
          /\ (reads_succeed c = true ->
                fst (Controller.goto_mem n c) = Return tt)).
Proof.
  intros H.
  destruct (bcd_nibbles n) as (Hrange & Hhi & Hlo); [lia|].
  destruct (chr_in_range (bcd n) Hrange) as (b & _ & Hb).
  exists b. rewrite Hb.
  split; [apply int_0x_two_digits; exact H|].
  split; [exact Hhi|]. split; [exact Hlo|].
  intros Hw.
  rewrite (goto_mem_sends n (bcd n) b c);
    [| lia | apply int_0x_two_digits; exact H | exact Hb].
  destruct (dropped_send_frame [xfe; xfe; x88; xe0; x08; b; xfd] c)
    as (_ & Hok & _).
  exact (Hok Hw).
Qed.

Lemma goto_mem_bcd_byte_witness :
  exists b : byte,
    int_0x (format_int 99) = Return (ord b)
    /\ ord b / 16 = 9
    /\ (ord b) mod 16 = 9
    /\ sent (snd (Controller.goto_mem 99
                    (Controller.init (answering_line ack) None)))
       = [xfe; xfe; x88; xe0; x08; b; xfd].
Proof.
  destruct (goto_mem_bcd_byte 99 (Controller.init (answering_line ack) None))
    as (b & Hint & Hhi & Hlo & Hsend); [lia|].
  exists b. repeat split; try assumption.
  exact (proj1 (Hsend eq_refl)).
Defined.

(** ** Power on (C3) *)

(** C3.  A connection is made at 9600 baud.  At each baud rate of the table
    300→2, 1200→3, 4800→7, 9600→13, 19200→25, [turn_on] writes, in one
    write, that many [0xFE] bytes immediately followed by
    [FE FE 88 E0 18 01 FD], and returns when no read raises. *)
Theorem turn_on_wake_up (c : Controller.t) (baud count : Z) :
  In (baud, count) [(300, 2); (1200, 3); (4800, 7); (9600, 13); (19200, 25)] ->
  Connection.BAUD (Controller.connection c) = baud ->
  write_succeeds c = true ->
  (forall line, Connection.BAUD (Connection.connect line) = 9600)
  /\ Controller.getitem Controller.repeatedFEs baud = Return count
  /\ sent (snd (Controller.turn_on c))
     = (sent c ++ repeat xfe (Z.to_nat count)
               ++ [xfe; xfe; x88; xe0; x18; x01; xfd])%list
  /\ (reads_succeed c = true -> fst (Controller.turn_on c) = Return tt).
Proof.
  intros Hin Hbaud Hw.
  assert (Hget : Controller.getitem Controller.repeatedFEs baud = Return count).
  { cbn [In] in Hin.
    destruct Hin as [[= <- <-]|[[= <- <-]|[[= <- <-]|[[= <- <-]|[[= <- <-]|[]]]]]];
      reflexivity. }
  split; [reflexivity|]. split; [exact Hget|].
  rewrite (turn_on_sends c count) by (rewrite Hbaud; exact Hget).
  destruct (dropped_send_frame
              (repeat xfe (Z.to_nat count)
               ++ [xfe; xfe; x88; xe0; x18; x01; xfd]) c) as (_ & Hok & _).
  exact (Hok Hw).
Qed.

Lemma turn_on_wake_up_witness :
  let c := Controller.init silent_line None in
  sent (snd (Controller.turn_on c))
  = [xfe; xfe; xfe; xfe; xfe; xfe; xfe; xfe; xfe; xfe; xfe; xfe; xfe;
     xfe; xfe; x88; xe0; x18; x01; xfd]
  /\ fst (Controller.turn_on c) = Return tt.
Proof.
  cbn zeta.
  destruct (turn_on_wake_up (Controller.init silent_line None) 9600 13)
    as (_ & _ & Hsent & Hret).
  - cbn. auto.
  - reflexivity.
  - reflexivity.
  - split; [exact Hsent | exact (Hret eq_refl)].
Defined.

(** ** Banks (C8) *)

(** C8.  [select_bank(0)] and [select_bank(7)] raise the
    invalid-bank-number [ValueError] and leave the controller, hence the
    port, exactly as it was: nothing is written.  [select_bank(3)] writes
    exactly [FE FE 88 E0 08 A0 03 FD] when the write succeeds, and returns
    when no read raises. *)
Theorem select_bank_range (c : Controller.t) :
  Controller.select_bank 0 c = (Raise (ValueError (InvalidBankNumber 0)), c)
  /\ Controller.select_bank 7 c = (Raise (ValueError (InvalidBankNumber 7)), c)
  /\ (write_succeeds c = true ->
        sent (snd (Controller.select_bank 3 c))
        = (sent c ++ [xfe; xfe; x88; xe0; x08; xa0; x03; xfd])%list
        /\ (reads_succeed c = true ->
              fst (Controller.select_bank 3 c) = Return tt)).
Proof.
  split; [apply select_bank_rejects; lia|].
  split; [apply select_bank_rejects; lia|].
  intros Hw.
  rewrite (select_bank_sends 3 x03 c) by (reflexivity || lia).
  destruct (dropped_send_frame [xfe; xfe; x88; xe0; x08; xa0; x03; xfd] c)
    as (_ & Hok & _).
  exact (Hok Hw).
Qed.

Lemma select_bank_range_witness :
  let c := Controller.init (answering_line ack) None in
  sent (snd (Controller.select_bank 3 c))
  = [xfe; xfe; x88; xe0; x08; xa0; x03; xfd]
  /\ fst (Controller.select_bank 3 c) = Return tt.
Proof.
  cbn zeta.
  destruct (select_bank_range (Controller.init (answering_line ack) None))
    as (_ & _ & H).
  destruct (H eq_refl) as [Hsent Hret].
  split; [exact Hsent | exact (Hret eq_refl)].
Defined.

(** ** Data mode (C4) *)

Lemma data_mode_sends (bytes : list byte) (b : bool) (c : Controller.t) :
  let r := match Controller.send (frame bytes) c with
           | (Return _, c') =>
               (Return tt,
                Controller.set_radio c'
                  (Radio.set_data_mode (Controller.radio c') b))
           | (Raise e, c') => (Raise e, c')
           end in
  (write_succeeds c = true ->
     sent (snd r) = (sent c ++ bytes)%list
     /\ (reads_succeed c = true ->
           fst r = Return tt
           /\ Controller.radio (snd r)
              = Radio.set_data_mode (Controller.radio c) b))
  /\ (write_succeeds c = false ->
        fst r = Raise SerialException
        /\ sent (snd r) = sent c
        /\ Controller.radio (snd r) = Controller.radio c)
  /\ (forall e, fst r = Raise e ->
        Controller.radio (snd r) = Controller.radio c)
  /\ (fst r = Return tt ->
        Controller.radio (snd r) = Radio.set_data_mode (Controller.radio c) b).
Proof.
  cbn zeta.
  destruct (send_frame bytes c) as (Hradio & _ & _ & Hw).
  destruct (Controller.send (frame bytes) c) as [[resp|e] c'];
    cbn [fst snd] in *.
  - unfold sent, port_of in *. cbn [Controller.set_radio Controller.connection
      Controller.radio]. rewrite Hradio.
    destruct (write_succeeds c).
    + destruct Hw as (Hsent & _ & _).
      repeat split; try assumption; try discriminate.
    + destruct Hw as ([=] & _).
  - destruct (write_succeeds c).
    + destruct Hw as (Hsent & Hret & _).
      repeat split; try assumption; try discriminate.
      all: try match goal with
               | Hr : reads_succeed _ = true |- _ =>
                   destruct (Hret Hr) as [resp [=]]
               end.
      intros; exact Hradio.
    + destruct Hw as ([= ->] & Hsent & _).
      repeat split; try assumption; try discriminate.
      intros; exact Hradio.
Qed.

(** C4.  [data_mode_on] writes exactly [FE FE 88 E0 1A 06 01 02 FD] and
    [data_mode_off] exactly [FE FE 88 E0 1A 06 00 00 FD].  When the write
    and the reads succeed the call returns with [data_mode] set (to [True],
    to [False]) and nothing else of the radio changed; when the write fails
    the call raises, nothing is written and the radio is as it was; and
    whenever the call raises the radio is as it was. *)
Theorem data_mode_set_after_write (c : Controller.t) :
  (write_succeeds c = true ->
     sent (snd (Controller.data_mode_on c))
     = (sent c ++ [xfe; xfe; x88; xe0; x1a; x06; x01; x02; xfd])%list
     /\ sent (snd (Controller.data_mode_off c))
        = (sent c ++ [xfe; xfe; x88; xe0; x1a; x06; x00; x00; xfd])%list
     /\ (reads_succeed c = true ->
           fst (Controller.data_mode_on c) = Return tt
           /\ Controller.radio (snd (Controller.data_mode_on c))
              = Radio.set_data_mode (Controller.radio c) true
           /\ fst (Controller.data_mode_off c) = Return tt
           /\ Controller.radio (snd (Controller.data_mode_off c))
              = Radio.set_data_mode (Controller.radio c) false))
  /\ (write_succeeds c = false ->
        fst (Controller.data_mode_on c) = Raise SerialException
        /\ sent (snd (Controller.data_mode_on c)) = sent c
        /\ Controller.radio (snd (Controller.data_mode_on c))
           = Controller.radio c
        /\ fst (Controller.data_mode_off c) = Raise SerialException
        /\ sent (snd (Controller.data_mode_off c)) = sent c
        /\ Controller.radio (snd (Controller.data_mode_off c))
           = Controller.radio c)
  /\ (forall e,
        (fst (Controller.data_mode_on c) = Raise e ->
         Controller.radio (snd (Controller.data_mode_on c))
         = Controller.radio c)
        /\ (fst (Controller.data_mode_off c) = Raise e ->
            Controller.radio (snd (Controller.data_mode_off c))
            = Controller.radio c)).
Proof.
  rewrite data_mode_on_sends, data_mode_off_sends.
  destruct (data_mode_sends [xfe; xfe; x88; xe0; x1a; x06; x01; x02; xfd] true c)
    as (Hon_ok & Hon_fail & Hon_raise & _).
  destruct (data_mode_sends [xfe; xfe; x88; xe0; x1a; x06; x00; x00; xfd] false c)
    as (Hoff_ok & Hoff_fail & Hoff_raise & _).
  cbn zeta in *.
  split; [|split].
  - intros Hw. destruct (Hon_ok Hw) as [H1 H2]. destruct (Hoff_ok Hw) as [H3 H4].
    split; [exact H1|]. split; [exact H3|].
    intros Hr. destruct (H2 Hr) as [H5 H6]. destruct (H4 Hr) as [H7 H8].
    repeat split; assumption.
  - intros Hw. destruct (Hon_fail Hw) as (H1 & H2 & H3).
    destruct (Hoff_fail Hw) as (H4 & H5 & H6).
    repeat split; assumption.
  - intros e. split; [apply Hon_raise | apply Hoff_raise].
Qed.

Lemma data_mode_set_after_write_witness :
  (let c := Controller.init (answering_line ack) (Some (Radio.set_data_mode Radio.init false)) in
   sent (snd (Controller.data_mode_on c))
   = [xfe; xfe; x88; xe0; x1a; x06; x01; x02; xfd]
   /\ Radio.data_mode (Controller.radio c) = false
   /\ Radio.data_mode (Controller.radio (snd (Controller.data_mode_on c))) = true)
  /\ (let c := Controller.init dead_line None in
      fst (Controller.data_mode_off c) = Raise SerialException
      /\ sent (snd (Controller.data_mode_off c)) = []
      /\ Radio.data_mode (Controller.radio (snd (Controller.data_mode_off c)))
         = true).
Proof.
  cbn zeta. split.
  - destruct (data_mode_set_after_write
                (Controller.init (answering_line ack)
                   (Some (Radio.set_data_mode Radio.init false))))
      as (Hok & _ & _).
    destruct (Hok eq_refl) as (Hsent & _ & Hret).
    destruct (Hret eq_refl) as (_ & Hradio & _).
    split; [exact Hsent|]. split; [reflexivity|].
    rewrite Hradio. reflexivity.
  - destruct (data_mode_set_after_write (Controller.init dead_line None))
      as (_ & Hfail & _).
    destruct (Hfail eq_refl) as (_ & _ & _ & Hraise & Hsent & Hradio).
    split; [exact Hraise|]. split; [exact Hsent|].
    rewrite Hradio. reflexivity.
Defined.

(** ** Receive and transmit (C5) *)

Lemma rx_tx_leave_radio (c : Controller.t) :
  Controller.radio (snd (Controller.rx c)) = Controller.radio c
  /\ Controller.radio (snd (Controller.tx c)) = Controller.radio c.
Proof.
  rewrite rx_sends, tx_sends. split.
  - exact (proj1 (dropped_send_frame _ c)).
  - exact (proj1 (dropped_send_frame _ c)).
Qed.

(** C5, on the code.  On a line that takes the write and answers with an
    acknowledgement, [tx] writes [FE FE 88 E0 1C 00 01 FD] and returns, and
    [transmitting], [False] before, is still [False]; [rx] on a radio known
    to be transmitting writes [FE FE 88 E0 1C 00 00 FD] and returns, and
    [transmitting] is still [True].  Neither method assigns the field. *)
Theorem tx_rx_leave_transmitting :
  (let c := Controller.init (answering_line ack) None in
   let r := Controller.tx c in
   fst r = Return tt
   /\ sent (snd r) = [xfe; xfe; x88; xe0; x1c; x00; x01; xfd]
   /\ Radio.transmitting (Controller.radio c) = false
   /\ Radio.transmitting (Controller.radio (snd r)) = false)
  /\ (let c := Controller.init (answering_line ack) (Some keyed_radio) in
      let r := Controller.rx c in
      fst r = Return tt
      /\ sent (snd r) = [xfe; xfe; x88; xe0; x1c; x00; x00; xfd]
      /\ Radio.transmitting (Controller.radio c) = true
      /\ Radio.transmitting (Controller.radio (snd r)) = true).
Proof. vm_compute. repeat split. Qed.

(** ** The response is never examined (C7) *)

Lemma perform_shape (op : Controller.operation) (baud : Z) : shape op baud.
Proof.
  destruct op as [ | |n|n| | | | ]; cbn [Controller.perform].
  - destruct (Controller.getitem Controller.repeatedFEs baud) as [count|e] eqn:E.
    + eapply Sends; [reflexivity|].
      intros c Hc. apply turn_on_sends. rewrite Hc. exact E.
    + eapply Refuses. intros c Hc. apply turn_on_unknown_baud.
      rewrite Hc. exact E.
  - eapply Sends; [reflexivity|]. intros c _. apply turn_off_sends.
  - destruct (Z_lt_le_dec n 1) as [Hlo|Hlo];
      [eapply Refuses; intros c _; apply goto_mem_rejects; lia|].
    destruct (Z_lt_le_dec 100 n) as [Hhi|Hhi];
      [eapply Refuses; intros c _; apply goto_mem_rejects; lia|].
    destruct (Z.eq_dec n 100) as [->|Hn].
    + eapply Refuses. intros c _.
      apply (goto_mem_unencodable 100 256); [lia | reflexivity | long_lia].
    + destruct (bcd_nibbles n) as (Hrange & _); [lia|].
      destruct (chr_in_range (bcd n) Hrange) as (b & _ & Hb).
      eapply Sends; [reflexivity|]. intros c _.
      apply (goto_mem_sends n (bcd n) b);
        [lia | apply int_0x_two_digits; lia | exact Hb].
  - destruct (Z_lt_le_dec n 1) as [Hlo|Hlo];
      [eapply Refuses; intros c _; apply select_bank_rejects; lia|].
    destruct (Z_lt_le_dec 6 n) as [Hhi|Hhi];
      [eapply Refuses; intros c _; apply select_bank_rejects; lia|].
    destruct (chr_in_range n) as (b & _ & Hb); [lia|].
    eapply Sends; [reflexivity|].
    intros c _. apply (select_bank_sends n b); [lia | exact Hb].
  - eapply Sends; [reflexivity|]. intros c _. apply rx_sends.
  - eapply Sends; [reflexivity|]. intros c _. apply tx_sends.
  - eapply (SendsAndSets _ _ _ true); [reflexivity|].
    intros c. apply data_mode_on_sends.
  - eapply (SendsAndSets _ _ _ false); [reflexivity|].
    intros c. apply data_mode_off_sends.
Qed.

(** The operations that always send a frame return when the write and the
    reads succeed, whatever was read. *)
Lemma perform_returns (op : Controller.operation) (c : Controller.t) :
  write_succeeds c = true ->
  reads_succeed c = true ->
  match op with
  | Controller.TurnOff | Controller.Rx | Controller.Tx
  | Controller.DataModeOn | Controller.DataModeOff =>
      fst (Controller.perform op c) = Return tt
  | _ => True
  end.
Proof.
  intros Hw Hr. destruct op; try exact I; cbn [Controller.perform].
  - rewrite turn_off_sends.
    exact (proj2 (proj1 (proj2 (dropped_send_frame _ c)) Hw) Hr).
  - rewrite rx_sends.
    exact (proj2 (proj1 (proj2 (dropped_send_frame _ c)) Hw) Hr).
  - rewrite tx_sends.
    exact (proj2 (proj1 (proj2 (dropped_send_frame _ c)) Hw) Hr).
  - rewrite data_mode_on_sends.
    destruct (data_mode_sends
                [xfe; xfe; x88; xe0; x1a; x06; x01; x02; xfd] true c)
      as (Hok & _).
    exact (proj1 (proj2 (Hok Hw) Hr)).
  - rewrite data_mode_off_sends.
    destruct (data_mode_sends
                [xfe; xfe; x88; xe0; x1a; x06; x00; x00; xfd] false c)
      as (Hok & _).
    exact (proj1 (proj2 (Hok Hw) Hr)).
Qed.

(** C7, as stated, fails: the radio sends [0x00] for ever, the loop gives up
    after 500 reads with a response that holds no terminator, and
    [data_mode_off] returns as on any other response, with [data_mode]
    changed from [True] to [False]. *)
Lemma unterminated_response_changes_radio :
  let c := Controller.init babbling_line None in
  let r := Controller.data_mode_off c in
  fst (Controller.send
         (frame [xfe; xfe; x88; xe0; x1a; x06; x00; x00; xfd]) c)
  = Return (repeat 0 500)
  /\ reads (snd r) = 500%nat
  /\ fst r = Return tt
  /\ Radio.data_mode (Controller.radio c) = true
  /\ Radio.data_mode (Controller.radio (snd r)) = false
  /\ Controller.radio (snd r) <> Controller.radio c.
Proof.
  cbn zeta.
  assert (H : Radio.data_mode
                (Controller.radio
                   (snd (Controller.data_mode_off
                           (Controller.init babbling_line None)))) = false)
    by (vm_compute; reflexivity).
  repeat split; try (vm_compute; reflexivity).
  intros E. rewrite E in H. discriminate H.
Qed.

(** C7, as amended.  No operation examines the response.  After an
    operation the radio is as it was, except that [data_mode_on] and
    [data_mode_off], when they return, have set [data_mode].  On two lines
    that differ only in what the reads deliver (none of them raising), an
    operation reports the same outcome and leaves the same radio.  When the
    write and the reads succeed, [turn_off], [rx], [tx], [data_mode_on] and
    [data_mode_off] return normally whatever was received. *)
Theorem response_never_examined
  (op : Controller.operation) (c c' : Controller.t) :
  Controller.radio (snd (Controller.perform op c))
  = match op, fst (Controller.perform op c) with
    | Controller.DataModeOn, Return _ =>
        Radio.set_data_mode (Controller.radio c) true
    | Controller.DataModeOff, Return _ =>
        Radio.set_data_mode (Controller.radio c) false
    | _, _ => Controller.radio c
    end
  /\ (Controller.radio c' = Controller.radio c ->
      Connection.BAUD (Controller.connection c')
      = Connection.BAUD (Controller.connection c) ->
      write_succeeds c' = write_succeeds c ->
      reads_succeed c = true ->
      reads_succeed c' = true ->
      fst (Controller.perform op c') = fst (Controller.perform op c)
      /\ Controller.radio (snd (Controller.perform op c'))
         = Controller.radio (snd (Controller.perform op c)))
  /\ (write_succeeds c = true ->
      reads_succeed c = true ->
      match op with
      | Controller.TurnOff | Controller.Rx | Controller.Tx
      | Controller.DataModeOn | Controller.DataModeOff =>
          fst (Controller.perform op c) = Return tt
      | _ => True
      end).
Proof.
  split; [|split; [|apply perform_returns]].
  - destruct (perform_shape op (Connection.BAUD (Controller.connection c)))
      as [e H|bytes Hop H|bytes b Hop H].
    + pose proof (H c eq_refl) as E.
      destruct op; rewrite E; cbn [fst snd]; reflexivity.
    + rewrite (H c eq_refl).
      rewrite (proj1 (dropped_send_frame bytes c)).
      destruct op; try discriminate Hop; reflexivity.
    + destruct (data_mode_sends bytes b c) as (_ & _ & Hraise & Hset).
      cbn zeta in Hraise, Hset. specialize (H c).
      destruct b; subst op; rewrite H;
        match goal with
        | |- Controller.radio (snd ?r) = _ =>
            destruct (fst r) as [[]|e] eqn:E
        end;
        first [ exact (Hset eq_refl) | exact (Hraise e eq_refl) ].
  - intros Er Eb Ew Hr Hr'.
    destruct (perform_shape op (Connection.BAUD (Controller.connection c)))
      as [e H|bytes Hop H|bytes b Hop H].
    + rewrite (H c eq_refl), (H c' Eb). cbn [fst snd].
      split; [reflexivity | exact Er].
    + rewrite (H c eq_refl), (H c' Eb).
      destruct (dropped_send_frame bytes c) as (Hradio & Hok & Hfail).
      destruct (dropped_send_frame bytes c') as (Hradio' & Hok' & Hfail').
      cbn zeta in *. rewrite Hradio, Hradio'. split; [|exact Er].
      destruct (write_succeeds c) eqn:W.
      * rewrite (proj2 (Hok eq_refl) Hr), (proj2 (Hok' Ew) Hr'). reflexivity.
      * rewrite (proj1 (Hfail eq_refl)), (proj1 (Hfail' Ew)). reflexivity.
    + rewrite (H c), (H c').
      destruct (data_mode_sends bytes b c) as (Hok & Hfail & _).
      destruct (data_mode_sends bytes b c') as (Hok' & Hfail' & _).
      cbn zeta in *.
      destruct (write_succeeds c) eqn:W.
      * destruct (proj2 (Hok eq_refl) Hr) as [R1 R2].
        destruct (proj2 (Hok' Ew) Hr') as [R1' R2'].
        rewrite R1, R1', R2, R2', Er. split; reflexivity.
      * destruct (Hfail eq_refl) as (R1 & _ & R2).
        destruct (Hfail' Ew) as (R1' & _ & R2').
        rewrite R1, R1', R2, R2', Er. split; reflexivity.
Qed.

Lemma response_never_examined_witness :
  let op := Controller.DataModeOff in
  let c := Controller.init (answering_line ack) None in
  let c' := Controller.init babbling_line None in
  fst (Controller.perform op c') = fst (Controller.perform op c)
  /\ Controller.radio (snd (Controller.perform op c'))
     = Controller.radio (snd (Controller.perform op c))
  /\ fst (Controller.perform op c) = Return tt.
Proof.
  intros op c c'.
  assert (Hw : write_succeeds c = true) by (vm_compute; reflexivity).
  assert (Hw' : write_succeeds c' = write_succeeds c)
    by (vm_compute; reflexivity).
  assert (Hr : reads_succeed c = true) by (vm_compute; reflexivity).
  assert (Hr' : reads_succeed c' = true) by (vm_compute; reflexivity).
  destruct (response_never_examined op c c') as (_ & Hsame & Hret).
  destruct (Hsame eq_refl eq_refl Hw' Hr Hr') as [H1 H2].
  split; [exact H1|]. split; [exact H2|].
  exact (Hret Hw Hr).
Defined.

(** ** The codec (C1, C6) *)

Lemma render_head (cmd : Command.t) :
  exists rest : list pyval,
    Command.render cmd
    = PyInt 0xFE :: PyInt 0xFE :: PyInt 0x88 :: PyInt 0xE0
      :: Command.cmd_num cmd :: rest.
Proof.
  unfold Command.render.
  destruct (Command.subcmd_num cmd), (Command.data cmd);
    cbn; eexists; reflexivity.
Qed.

(** An item is never equal to a list, so each address test of
    [cmd_from_binary] holds whatever the item is. *)
Lemma item_ne_list (v : pyval) (l : list pyval) : py_ne (Atom v) (Seq l) = true.
Proof. reflexivity. Qed.

(** Hence [cmd_from_binary] never reaches its assignment of [cmd_num]. *)
Lemma cmd_from_binary_never_returns (binary_string : list pyval) (v : pyval) :
  cmd_from_binary binary_string <> Return v.
Proof.
  unfold cmd_from_binary, cmd_from_binary_local.
  destruct (py_ne (Seq (firstn 2 binary_string)) (Seq Command.PREAMBLE));
    [discriminate|].
  destruct (index binary_string 2) as [b2|e]; cbn [obind]; [|discriminate].
  rewrite item_ne_list. discriminate.
Qed.

(** C1, as stated, fails: the frame rendered for command [0x08] is rejected
    by [cmd_from_binary] with the address error, so nothing is recovered. *)
Lemma decode_of_encode_rejected :
  let cmd := Command.set_num Command.init (PyInt 0x08) in
  Command.render cmd = frame [xfe; xfe; x88; xe0; x08; xfd]
  /\ cmd_from_binary (Command.render cmd) = Raise (ValueError InvalidAddresses)
  /\ ~ (exists v, cmd_from_binary (Command.render cmd) = Return v).
Proof.
  cbn zeta. split; [reflexivity|]. split; [reflexivity|].
  intros [v H]. discriminate H.
Qed.

(** C1, as amended.  For every command, the rendered frame carries [0x88]
    at index 2, [0xE0] at index 3 and [cmd_num] at index 4, and
    [cmd_from_binary] applied to it never returns: it raises the
    invalid-addresses [ValueError]. *)
Theorem decode_of_encode (cmd : Command.t) :
  index (Command.render cmd) 2 = Return (PyInt 0x88)
  /\ index (Command.render cmd) 3 = Return (PyInt 0xE0)
  /\ index (Command.render cmd) 4 = Return (Command.cmd_num cmd)
  /\ cmd_from_binary (Command.render cmd) = Raise (ValueError InvalidAddresses)
  /\ (forall v, cmd_from_binary (Command.render cmd) <> Return v).
Proof.
  destruct (render_head cmd) as [rest ->].
  repeat split; try reflexivity. intros v H. discriminate H.
Qed.







(** * Further properties of the code *)

(** ** Command.render *)

Lemma render_payload (cmd : Command.t) :
  Command.render cmd
  = ([PyInt 0xFE; PyInt 0xFE; PyInt 0x88; PyInt 0xE0; Command.cmd_num cmd]
     ++ payload cmd ++ [Command.END_OF_MSG])%list.
Proof.
  unfold Command.render, payload.
  destruct (Command.subcmd_num cmd), (Command.data cmd); cbn;
    rewrite <- ?app_assoc; reflexivity.
Qed.

(** X1.  On the wire a subcommand is one more leading data item: a command
    with subcommand [sub] and data [d] renders as the command without
    subcommand and with data [sub :: d]; and no data renders as empty data. *)
Theorem render_subcmd_is_leading_data (num : pyval) (sub : Z) (d : list pyval) :
  Command.render (Command.mk num (PyInt sub) (Some d))
  = Command.render (Command.mk num PyNone (Some (PyInt sub :: d)))
  /\ Command.render (Command.mk num (PyInt sub) None)
     = Command.render (Command.mk num PyNone (Some [PyInt sub]))
  /\ Command.render (Command.mk num PyNone None)
     = Command.render (Command.mk num PyNone (Some [])).
Proof. rewrite !render_payload. repeat split. Qed.

(** X2.  [render] always ends the frame with the terminator and escapes
    nothing: the terminator value occurs before the end of the frame exactly
    when the command number, the subcommand or a data item is [0xFD]. *)
Theorem render_terminator (cmd : Command.t) :
  last (Command.render cmd) PyNone = Command.END_OF_MSG
  /\ List.length (Command.render cmd) = (6 + List.length (payload cmd))%nat
  /\ (In Command.END_OF_MSG (removelast (Command.render cmd))
      <-> Command.cmd_num cmd = Command.END_OF_MSG
          \/ Command.subcmd_num cmd = Command.END_OF_MSG
          \/ exists d, Command.data cmd = Some d /\ In Command.END_OF_MSG d).
Proof.
  rewrite render_payload.
  split; [|split].
  - rewrite app_assoc. apply last_last.
  - rewrite !length_app. cbn. lia.
  - rewrite app_assoc, removelast_last.
    unfold payload. cbn [app In].
    destruct (Command.subcmd_num cmd) as [|s], (Command.data cmd) as [d|];
      cbn [app In]; rewrite ?in_app_iff; cbn [In];
      unfold Command.END_OF_MSG; split; intros H.
    all: repeat match goal with
                | H : _ \/ _ |- _ => destruct H
                | H : exists _, _ |- _ => destruct H
                | H : _ /\ _ |- _ => destruct H
                | H : Some _ = Some _ |- _ => injection H as <-
                | H : False |- _ => destruct H
                end;
         try discriminate; eauto 10.
Qed.

(** ** Connection.send_cmd on any list *)

Lemma comprehension_hex_none (cmd : list pyval) :
  In PyNone cmd -> comprehension hex cmd = Raise TypeError.
Proof.
  induction cmd as [|v cmd IH]; intros H; [destruct H|].
  destruct v as [|z].
  - reflexivity.
  - destruct H as [H|H]; [discriminate H|].
    cbn [comprehension hex obind]. rewrite (IH H). reflexivity.
Qed.

Lemma comprehension_hex_ints (cmd : list pyval) :
  ~ In PyNone cmd -> exists us, comprehension hex cmd = Return us.
Proof.
  induction cmd as [|v cmd IH]; intros H; [eexists; reflexivity|].
  destruct v as [|z]; [exfalso; apply H; left; reflexivity|].
  destruct IH as [us E]; [intros Hin; apply H; right; exact Hin|].
  cbn [comprehension hex obind]. rewrite E. eexists. reflexivity.
Qed.

Lemma comprehension_chr_out_of_range (cmd : list pyval) :
  ~ In PyNone cmd ->
  (forall z, In (PyInt z) cmd -> LONG_MIN <= z <= LONG_MAX) ->
  (exists z, In (PyInt z) cmd /\ (z < 0 \/ 256 <= z)) ->
  comprehension chr cmd = Raise (ValueError ChrNotInRange).
Proof.
  induction cmd as [|v cmd IH]; intros Hn Hl (z & Hin & Hz); [destruct Hin|].
  destruct v as [|y]; [exfalso; apply Hn; left; reflexivity|].
  cbn [comprehension].
  assert (Hy : LONG_MIN <= y <= LONG_MAX) by (apply Hl; left; reflexivity).
  destruct (Z_lt_le_dec y 0) as [Hy0|Hy0];
    [rewrite (chr_out_of_range y Hy) by lia; reflexivity|].
  destruct (Z_lt_le_dec y 256) as [Hy'|Hy'];
    [|rewrite (chr_out_of_range y Hy) by lia; reflexivity].
  destruct (chr_in_range y) as (c & -> & _); [lia|].
  cbn [obind]. rewrite IH; [reflexivity | | |].
  - intros H. apply Hn. right. exact H.
  - intros x Hx. apply Hl. right. exact Hx.
  - destruct Hin as [[= ->]|Hin]; [lia|].
    exists z. split; assumption.
Qed.

(** X3.  A list with a [None] item, as the frame of a command whose number
    was never set, is refused with [TypeError] before the port is touched:
    the connection is exactly as it was. *)
Theorem send_cmd_none_item (cmd : list pyval) (conn : Connection.t) :
  In PyNone cmd ->
  Connection.send_cmd cmd conn = (Raise TypeError, conn).
Proof.
  intros H. unfold Connection.send_cmd, bind, pure.
  rewrite (comprehension_hex_none cmd H). reflexivity.
Qed.

Lemma send_cmd_none_item_witness :
  Connection.send_cmd (Command.render Command.init)
    (Connection.connect silent_line)
  = (Raise TypeError, Connection.connect silent_line).
Proof.
  apply (send_cmd_none_item (Command.render Command.init)).
  cbn. auto 10.
Defined.

(** X4.  A list of ints that all fit a C [long], one of them outside
    0..255, is refused with the [ValueError] of [chr] before the port is
    touched: nothing is written, nothing is read. *)
Theorem send_cmd_item_out_of_range (cmd : list pyval) (conn : Connection.t) :
  ~ In PyNone cmd ->
  (forall z, In (PyInt z) cmd -> LONG_MIN <= z <= LONG_MAX) ->
  (exists z, In (PyInt z) cmd /\ (z < 0 \/ 256 <= z)) ->
  Connection.send_cmd cmd conn = (Raise (ValueError ChrNotInRange), conn).
Proof.
  intros Hn Hl Hz. unfold Connection.send_cmd, bind, pure.
  destruct (comprehension_hex_ints cmd Hn) as [us ->].
  rewrite (comprehension_chr_out_of_range cmd Hn Hl Hz). reflexivity.
Qed.

Lemma send_cmd_item_out_of_range_witness :
  Connection.send_cmd [PyInt 0xFE; PyInt 256; PyInt (-1)]
    (Connection.connect silent_line)
  = (Raise (ValueError ChrNotInRange), Connection.connect silent_line).
Proof.
  apply (send_cmd_item_out_of_range [PyInt 0xFE; PyInt 256; PyInt (-1)]).
  - cbn. intros [H|[H|[H|[]]]]; discriminate H.
  - cbn. intros z [[= <-]|[[= <-]|[[= <-]|[]]]]; long_lia.
  - exists 256. cbn. split; [auto | lia].
Defined.

(** ** What a call costs *)

Lemma send_cmd_port (cmd : list pyval) (conn : Connection.t) :
  let p := Connection._port conn in
  let conn' := snd (Connection.send_cmd cmd conn) in
  let p' := Connection._port conn' in
  Connection.BAUD conn' = Connection.BAUD conn
  /\ Connection.PORT conn' = Connection.PORT conn
  /\ Serial.rx_script p' = Serial.rx_script p
  /\ Serial.tx_script p' = Serial.tx_script p
  /\ (Serial.tx_calls p <= Serial.tx_calls p' <= Serial.tx_calls p + 1)%nat
  /\ (Serial.rx_calls p <= Serial.rx_calls p' <= Serial.rx_calls p + 500)%nat
  /\ (exists bytes, Serial.tx_log p' = (Serial.tx_log p ++ bytes)%list).
Proof.
  cbn zeta. unfold Connection.send_cmd, within, bind, pure, ret.
  assert (Hnil : exists bytes : list byte,
             Serial.tx_log (Connection._port conn)
             = (Serial.tx_log (Connection._port conn) ++ bytes)%list)
    by (exists []; rewrite app_nil_r; reflexivity).
  destruct (comprehension hex cmd); [|cbn; repeat split; try lia; exact Hnil].
  destruct (comprehension chr cmd) as [chars|];
    [|cbn; repeat split; try lia; exact Hnil].
  destruct conn as [baud name q].
  cbn [Connection._port Connection.set_port] in *.
  unfold Serial.write.
  destruct (Serial.tx_script q (Serial.tx_calls q));
    [|cbn; repeat split; try lia; exact Hnil].
  cbn [Connection._port Connection.set_port fst snd].
  match goal with
  | |- context [Connection.read_response 500 [] ?q'] =>
      pose proof (read_response_port 500 [] q') as Hp;
      destruct (Connection.read_response 500 [] q') as [[resp|e] q'']
  end; cbn in Hp |- *; destruct Hp as (H1 & H2 & H3 & H4 & H5);
    rewrite ?H1, ?H2, ?H3, ?H4; repeat split; try lia;
    exists chars; reflexivity.
Qed.

(** X5.  Whatever its arguments and whatever the line does, an operation of
    the controller calls [write] at most once and [read(1)] at most 500
    times, only appends to what was written, and leaves the baud rate and
    the port name alone; when it ends with an exception other than the
    port's [SerialException] the controller is exactly as it was. *)
Theorem perform_cost (op : Controller.operation) (c : Controller.t) :
  let r := Controller.perform op c in
  let p := port_of c in
  let p' := port_of (snd r) in
  (Serial.tx_calls p <= Serial.tx_calls p' <= Serial.tx_calls p + 1)%nat
  /\ (Serial.rx_calls p <= Serial.rx_calls p' <= Serial.rx_calls p + 500)%nat
  /\ (exists bytes, sent (snd r) = (sent c ++ bytes)%list)
  /\ Connection.BAUD (Controller.connection (snd r))
     = Connection.BAUD (Controller.connection c)
  /\ Connection.PORT (Controller.connection (snd r))
     = Connection.PORT (Controller.connection c)
  /\ (forall e, fst r = Raise e -> e <> SerialException -> snd r = c).
Proof.
  cbn zeta.
  assert (Hsend : forall bytes,
    let r := Controller.send (frame bytes) c in
    (Serial.tx_calls (port_of c) <= Serial.tx_calls (port_of (snd r))
     <= Serial.tx_calls (port_of c) + 1)%nat
    /\ (Serial.rx_calls (port_of c) <= Serial.rx_calls (port_of (snd r))
        <= Serial.rx_calls (port_of c) + 500)%nat
    /\ (exists out, sent (snd r) = (sent c ++ out)%list)
    /\ Connection.BAUD (Controller.connection (snd r))
       = Connection.BAUD (Controller.connection c)
    /\ Connection.PORT (Controller.connection (snd r))
       = Connection.PORT (Controller.connection c)
    /\ (forall e, fst r = Raise e -> e = SerialException)).
  { intros bytes. cbn zeta.
    destruct (send_frame bytes c) as (_ & _ & _ & Hw).
    assert (He : forall e, fst (Controller.send (frame bytes) c) = Raise e ->
                           e = SerialException).
    { destruct (write_succeeds c).
      - apply Hw.
      - destruct Hw as (-> & _). intros e [= <-]. reflexivity. }
    clear Hw. revert He.
    unfold Controller.send, within, sent, port_of.
    pose proof (send_cmd_port (frame bytes) (Controller.connection c)) as Hp.
    cbn zeta in Hp.
    destruct (Connection.send_cmd (frame bytes) (Controller.connection c))
      as [o conn'].
    cbn [fst snd Controller.connection Controller.set_connection] in *.
    destruct Hp as (H1 & H2 & _ & _ & H5 & H6 & H7).
    intros He. repeat split; try assumption; lia. }
  assert (Hsame : (Serial.tx_calls (port_of c) <= Serial.tx_calls (port_of c)
                   <= Serial.tx_calls (port_of c) + 1)%nat
                  /\ (Serial.rx_calls (port_of c) <= Serial.rx_calls (port_of c)
                      <= Serial.rx_calls (port_of c) + 500)%nat
                  /\ (exists bytes, sent c = (sent c ++ bytes)%list)).
  { repeat split; try lia. exists []. rewrite app_nil_r. reflexivity. }
  destruct (perform_shape op (Connection.BAUD (Controller.connection c)))
    as [e H|bytes Hop H|bytes b Hop H].
  - rewrite (H c eq_refl). cbn [fst snd].
    destruct Hsame as (S1 & S2 & S3).
    repeat split; try assumption; lia.
  - rewrite (H c eq_refl). unfold dropped. cbn [fst snd].
    destruct (Hsend bytes) as (H1 & H2 & H3 & H4 & H5 & H6).
    repeat split; try assumption; try lia.
    intros e' He' Hne. exfalso. apply Hne. apply H6.
    destruct (fst (Controller.send (frame bytes) c)); [discriminate He'|].
    cbn in He'. injection He' as ->. reflexivity.
  - rewrite (H c).
    destruct (Hsend bytes) as (H1 & H2 & H3 & H4 & H5 & H6).
    destruct (Controller.send (frame bytes) c) as [[resp|e1] c1];
      cbn [fst snd] in *.
    + unfold sent, port_of in *.
      cbn [Controller.set_radio Controller.connection].
      repeat split; try assumption; try lia. intros e' [=].
    + repeat split; try assumption; try lia.
      intros e' [= <-] Hne. exfalso. apply Hne. apply H6. reflexivity.
Qed.

Lemma perform_cost_witness :
  let c := Controller.init silent_line None in
  snd (Controller.perform (Controller.GotoMem 100) c) = c.
Proof.
  intros c.
  destruct (perform_cost (Controller.GotoMem 100) c) as (_ & _ & _ & _ & _ & H).
  apply (H (ValueError ChrNotInRange)); [reflexivity | discriminate].
Defined.

(** ** The response *)

Lemma ord_range (c : byte) : 0 <= ord c < 256.
Proof.
  unfold ord. pose proof (Byte.to_N_bounded c) as H. lia.
Qed.

Lemma ord_terminator (c : byte) : (ord c =? 0xFD) = Byte.eqb c xfd.
Proof. destruct c; reflexivity. Qed.

Lemma read_response_invariant (n : nat) :
  forall (acc : list Z) (p : Serial.t) (resp : list Z),
    fst (Connection.read_response n acc p) = Return resp ->
    exists new : list Z,
      resp = (acc ++ new)%list
      /\ (List.length new <= n)%nat
      /\ Forall (fun b => 0 <= b < 256) new
      /\ (forall i, nth_error new i = Some 0xFD -> S i = List.length new).
Proof.
  induction n as [|n IH]; intros acc p resp; cbn [Connection.read_response].
  - intros [= <-]. exists []. rewrite app_nil_r.
    repeat split; [cbn; lia | constructor | intros [|i]; discriminate].
  - unfold bind, Serial.read1.
    destruct (Serial.rx_script p (Serial.rx_calls p)) as [c| |].
    + destruct (ord c =? 0xFD) eqn:Efd.
      * intros [= <-]. exists [ord c].
        repeat split; [cbn; lia | repeat constructor; apply ord_range |].
        intros [|[|i]]; cbn; intros [=]; reflexivity.
      * intros H. destruct (IH _ _ _ H) as (new & -> & Hlen & Hall & Hfd).
        exists (ord c :: new). rewrite <- app_assoc.
        repeat split; [cbn; lia | constructor; [apply ord_range | exact Hall] |].
        intros [|i]; cbn.
        -- intros [= E]. rewrite E in Efd. discriminate Efd.
        -- intros H'. f_equal. apply Hfd. exact H'.
    + intros [= <-]. exists []. rewrite app_nil_r.
      repeat split; [cbn; lia | constructor | intros [|i]; discriminate].
    + intros [=].
Qed.

(** X6.  A response that [send_cmd] returns has at most 500 items, each of
    them a byte value 0..255, and holds the terminator [0xFD] nowhere but in
    its last place. *)
Theorem send_cmd_response_shape
  (cmd : list pyval) (conn : Connection.t) (resp : list Z) :
  fst (Connection.send_cmd cmd conn) = Return resp ->
  (List.length resp <= 500)%nat
  /\ Forall (fun b => 0 <= b < 256) resp
  /\ (forall i, nth_error resp i = Some 0xFD -> S i = List.length resp).
Proof.
  unfold Connection.send_cmd, within, bind, pure, ret.
  destruct (comprehension hex cmd); [|intros [=]].
  destruct (comprehension chr cmd) as [chars|]; [|intros [=]].
  destruct (Serial.write chars (Connection._port conn)) as [[[]|e] p1];
    [|intros [=]].
  cbn [Connection._port Connection.set_port].
  destruct conn as [baud name q]. cbn [Connection._port Connection.set_port].
  pose proof (read_response_invariant 500 [] p1) as Hinv.
  destruct (Connection.read_response 500 [] p1) as [[r|e] p2];
    cbn [fst] in *; [|intros [=]].
  intros [= <-].
  destruct (Hinv r eq_refl) as (new & -> & Hlen & Hall & Hfd).
  cbn [app]. repeat split; assumption.
Qed.

Lemma send_cmd_response_shape_witness :
  (List.length (map ord ack) <= 500)%nat
  /\ Forall (fun b => 0 <= b < 256) (map ord ack)
  /\ (forall i, nth_error (map ord ack) i = Some 0xFD
                -> S i = List.length (map ord ack)).
Proof.
  apply (send_cmd_response_shape
           (frame [xfe; xfe; x88; xe0; x18; x00; xfd])
           (Connection.connect (answering_line ack))).
  reflexivity.
Defined.

Lemma upcoming_cons (p : Serial.t) (n : nat) :
  upcoming p (S n)
  = Serial.rx_script p (Serial.rx_calls p)
    :: upcoming {| Serial.rx_script := Serial.rx_script p;
                   Serial.rx_calls := S (Serial.rx_calls p);
                   Serial.tx_script := Serial.tx_script p;
                   Serial.tx_calls := Serial.tx_calls p;
                   Serial.tx_log := Serial.tx_log p |} n.
Proof. reflexivity. Qed.

(** The loop on a line that delivers the bytes [pre], none a terminator,
    and then makes a read that stops the loop. *)
Lemma read_response_exact (pre : list byte) :
  forall (n : nat) (acc : list Z) (p : Serial.t) (ev : Serial.read_event),
    (List.length pre < n)%nat ->
    existsb (Byte.eqb xfd) pre = false ->
    upcoming p (S (List.length pre)) = (map Serial.Got pre ++ [ev])%list ->
    stops ev = true ->
    fst (Connection.read_response n acc p)
    = match ev with
      | Serial.Got c => Return (acc ++ map ord pre ++ [ord c])%list
      | Serial.Silence => Return (acc ++ map ord pre)%list
      | Serial.ReadFailure => Raise SerialException
      end
    /\ Serial.rx_calls (snd (Connection.read_response n acc p))
       = (Serial.rx_calls p + S (List.length pre))%nat.
Proof.
  induction pre as [|c pre IH]; intros n acc p ev Hn Hfd Hup Hstop;
    (destruct n as [|n]; [cbn in Hn; lia|]);
    rewrite upcoming_cons in Hup; cbn [map app List.length] in Hup;
    [injection Hup as Hev | injection Hup as Hev Hup];
    cbn [Connection.read_response]; unfold bind, Serial.read1; rewrite Hev.
  - destruct ev as [c| |]; cbn [stops] in Hstop.
    + rewrite Hstop. cbn. rewrite ?app_nil_r. split; [reflexivity | lia].
    + cbn. rewrite ?app_nil_r. split; [reflexivity | lia].
    + cbn. split; [reflexivity | lia].
  - cbn [existsb] in Hfd. apply orb_false_iff in Hfd. destruct Hfd as [Hc Hfd].
    assert (Hc' : (ord c =? 0xFD) = false).
    { rewrite ord_terminator. destruct (Byte.eqb c xfd) eqn:E; [|reflexivity].
      apply Byte.byte_dec_bl in E. subst c. discriminate Hc. }
    rewrite Hc'.
    match goal with
    | |- context [Connection.read_response n ?a ?q] =>
        destruct (IH n a q ev) as [H1 H2];
          [cbn in Hn; lia | exact Hfd | exact Hup | exact Hstop |]
    end.
    rewrite H1, H2. cbn [Serial.rx_calls List.length map].
    split; [|lia].
    destruct ev; rewrite <- ?app_assoc; reflexivity.
Qed.

(** The loop on a line that delivers as many bytes as there are attempts,
    none of them a terminator. *)
Lemma read_response_cap (pre : list byte) :
  forall (acc : list Z) (p : Serial.t),
    existsb (Byte.eqb xfd) pre = false ->
    upcoming p (List.length pre) = map Serial.Got pre ->
    fst (Connection.read_response (List.length pre) acc p)
    = Return (acc ++ map ord pre)%list
    /\ Serial.rx_calls (snd (Connection.read_response (List.length pre) acc p))
       = (Serial.rx_calls p + List.length pre)%nat.
Proof.
  induction pre as [|c pre IH]; intros acc p Hfd Hup.
  - cbn. rewrite app_nil_r. split; [reflexivity | lia].
  - cbn [List.length] in *. rewrite upcoming_cons in Hup. cbn [map] in Hup.
    injection Hup as Hev Hup.
    cbn [existsb] in Hfd. apply orb_false_iff in Hfd. destruct Hfd as [Hc Hfd].
    assert (Hc' : (ord c =? 0xFD) = false).
    { rewrite ord_terminator. destruct (Byte.eqb c xfd) eqn:E; [|reflexivity].
      apply Byte.byte_dec_bl in E. subst c. discriminate Hc. }
    cbn [Connection.read_response]. unfold bind, Serial.read1.
    rewrite Hev, Hc'.
    match goal with
    | |- context [Connection.read_response _ ?a ?q] =>
        destruct (IH a q Hfd Hup) as [H1 H2]
    end.
    rewrite H1, H2. cbn [Serial.rx_calls map].
    rewrite <- app_assoc. split; [reflexivity | lia].
Qed.

Lemma send_cmd_reads (out : list byte) (conn : Connection.t) :
  next_write_ok (Connection._port conn) = true ->
  exists p1 : Serial.t,
    Serial.rx_script p1 = Serial.rx_script (Connection._port conn)
    /\ Serial.rx_calls p1 = Serial.rx_calls (Connection._port conn)
    /\ fst (Connection.send_cmd (frame out) conn)
       = fst (Connection.read_response 500 [] p1)
    /\ Connection._port (snd (Connection.send_cmd (frame out) conn))
       = snd (Connection.read_response 500 [] p1).
Proof.
  intros Hw. destruct conn as [baud name q].
  unfold next_write_ok in Hw. cbn [Connection._port] in Hw |- *.
  exists {| Serial.rx_script := Serial.rx_script q;
            Serial.rx_calls := Serial.rx_calls q;
            Serial.tx_script := Serial.tx_script q;
            Serial.tx_calls := S (Serial.tx_calls q);
            Serial.tx_log := (Serial.tx_log q ++ out)%list |}.
  split; [reflexivity|]. split; [reflexivity|].
  unfold Connection.send_cmd, within, bind, pure, ret.
  rewrite comprehension_hex_frame, comprehension_chr_frame.
  cbn [Connection._port Connection.set_port].
  unfold Serial.write. rewrite Hw.
  cbn [Connection._port Connection.set_port].
  match goal with
  | |- context [Connection.read_response 500 [] ?p1] =>
      destruct (Connection.read_response 500 [] p1) as [[r|e] p2]
  end; split; reflexivity.
Qed.

Lemma upcoming_ext (p q : Serial.t) (n : nat) :
  Serial.rx_script q = Serial.rx_script p ->
  Serial.rx_calls q = Serial.rx_calls p ->
  upcoming q n = upcoming p n.
Proof. intros H1 H2. unfold upcoming. rewrite H1, H2. reflexivity. Qed.

(** X7.  When the write succeeds and the line then delivers the bytes
    [pre], fewer than 500 and none a terminator, followed by a read that
    stops the loop, [send_cmd] makes exactly these reads and no more: it
    returns [pre] with the terminator when that read is one, [pre] alone
    when that read is empty, and raises, dropping [pre], when that read
    raises.  What the line holds after that read is left unread. *)
Theorem send_cmd_response_exact
  (out pre : list byte) (ev : Serial.read_event) (conn : Connection.t) :
  next_write_ok (Connection._port conn) = true ->
  (List.length pre < 500)%nat ->
  existsb (Byte.eqb xfd) pre = false ->
  upcoming (Connection._port conn) (S (List.length pre))
  = (map Serial.Got pre ++ [ev])%list ->
  stops ev = true ->
  fst (Connection.send_cmd (frame out) conn)
  = match ev with
    | Serial.Got c => Return (map ord pre ++ [ord c])%list
    | Serial.Silence => Return (map ord pre)
    | Serial.ReadFailure => Raise SerialException
    end
  /\ Serial.rx_calls (Connection._port (snd (Connection.send_cmd (frame out) conn)))
     = (Serial.rx_calls (Connection._port conn) + S (List.length pre))%nat.
Proof.
  intros Hw Hlen Hfd Hup Hstop.
  destruct (send_cmd_reads out conn Hw) as (p1 & Hs & Hc & -> & ->).
  rewrite <- (upcoming_ext _ p1 _ Hs Hc) in Hup.
  destruct (read_response_exact pre 500 [] p1 ev Hlen Hfd Hup Hstop)
    as [H1 H2].
  rewrite H1, H2, Hc. split; reflexivity.
Qed.

Lemma send_cmd_response_exact_witness :
  let conn := Connection.connect
                (answering_line [xfe; xfe; xe0; x88; xfb; xfd; x00; x01]) in
  fst (Connection.send_cmd (frame [xfe; xfe; x88; xe0; x18; x00; xfd]) conn)
  = Return [0xFE; 0xFE; 0xE0; 0x88; 0xFB; 0xFD]
  /\ Serial.rx_calls
       (Connection._port
          (snd (Connection.send_cmd (frame [xfe; xfe; x88; xe0; x18; x00; xfd])
                  conn))) = 6%nat.
Proof.
  intros conn.
  apply (send_cmd_response_exact [xfe; xfe; x88; xe0; x18; x00; xfd]
           [xfe; xfe; xe0; x88; xfb] (Serial.Got xfd) conn);
    [reflexivity | cbn; lia | reflexivity | reflexivity | reflexivity].
Defined.

(** X8.  When the write succeeds and the line delivers 500 bytes none of
    which is a terminator, [send_cmd] returns exactly these 500 bytes, as an
    ordinary response, after 500 reads. *)
Theorem send_cmd_response_capped
  (out pre : list byte) (conn : Connection.t) :
  next_write_ok (Connection._port conn) = true ->
  List.length pre = 500%nat ->
  existsb (Byte.eqb xfd) pre = false ->
  upcoming (Connection._port conn) 500 = map Serial.Got pre ->
  fst (Connection.send_cmd (frame out) conn) = Return (map ord pre)
  /\ Serial.rx_calls (Connection._port (snd (Connection.send_cmd (frame out) conn)))
     = (Serial.rx_calls (Connection._port conn) + 500)%nat.
Proof.
  intros Hw Hlen Hfd Hup.
  destruct (send_cmd_reads out conn Hw) as (p1 & Hs & Hc & -> & ->).
  rewrite <- (upcoming_ext _ p1 _ Hs Hc) in Hup.
  rewrite <- Hlen in Hup |- *.
  destruct (read_response_cap pre [] p1 Hfd Hup) as [H1 H2].
  rewrite H1, H2, Hc. split; reflexivity.
Qed.

Lemma send_cmd_response_capped_witness :
  fst (Connection.send_cmd (frame [xfe; xfe; x88; xe0; x18; x00; xfd])
         (Connection.connect babbling_line))
  = Return (map ord (repeat x00 500)).
Proof.
  apply (send_cmd_response_capped [xfe; xfe; x88; xe0; x18; x00; xfd]
           (repeat x00 500) (Connection.connect babbling_line));
    vm_compute; reflexivity.
Defined.

(** ** More on the operations of the controller *)

Lemma sent_after_send (bytes : list byte) (c : Controller.t) :
  sent (snd (Controller.send (frame bytes) c))
  = if write_succeeds c then (sent c ++ bytes)%list else sent c.
Proof.
  destruct (send_frame bytes c) as (_ & _ & _ & Hw).
  destruct (write_succeeds c); [apply Hw | apply Hw].
Qed.

Lemma bcd_injective (n m : Z) :
  0 <= n <= 99 -> 0 <= m <= 99 -> bcd n = bcd m -> n = m.
Proof.
  intros Hn Hm E.
  destruct (bcd_nibbles n Hn) as (_ & Hn1 & Hn2).
  destruct (bcd_nibbles m Hm) as (_ & Hm1 & Hm2).
  rewrite E in Hn1, Hn2.
  rewrite (Z.div_mod n 10), (Z.div_mod m 10) by lia.
  rewrite <- Hn1, <- Hn2, Hm1, Hm2. reflexivity.
Qed.

(** X9.  [goto_mem] writes to the port for the memory numbers 1 to 99 and
    for no other integer: outside 1..100 it raises the invalid-memory-number
    [ValueError], and at 100 the [ValueError] of [chr], in both cases with
    the controller exactly as it was. *)
Theorem goto_mem_writes_iff (n : Z) (c : Controller.t) :
  write_succeeds c = true ->
  (sent (snd (Controller.goto_mem n c)) <> sent c <-> 1 <= n <= 99)
  /\ (n < 1 \/ 100 < n ->
      Controller.goto_mem n c = (Raise (ValueError (InvalidMemoryNumber n)), c))
  /\ (n = 100 ->
      Controller.goto_mem n c = (Raise (ValueError ChrNotInRange), c)).
Proof.
  intros Hw.
  assert (Hout : n < 1 \/ 100 < n ->
                 Controller.goto_mem n c
                 = (Raise (ValueError (InvalidMemoryNumber n)), c))
    by (intros H; apply goto_mem_rejects; lia).
  assert (H100 : n = 100 ->
                 Controller.goto_mem n c = (Raise (ValueError ChrNotInRange), c)).
  { intros ->. apply (goto_mem_unencodable 100 256); [lia | reflexivity | long_lia]. }
  split; [|split; assumption].
  split.
  - intros Hne.
    destruct (Z_lt_le_dec n 1) as [H1|H1];
      [exfalso; apply Hne; rewrite Hout by lia; reflexivity|].
    destruct (Z_lt_le_dec 100 n) as [H2|H2];
      [exfalso; apply Hne; rewrite Hout by lia; reflexivity|].
    destruct (Z.eq_dec n 100) as [E|E];
      [exfalso; apply Hne; rewrite (H100 E); reflexivity | lia].
  - intros Hn.
    destruct (bcd_nibbles n) as (Hrange & _); [lia|].
    destruct (chr_in_range (bcd n) Hrange) as (b & _ & Hb).
    rewrite (goto_mem_sends n (bcd n) b c);
      [| lia | apply int_0x_two_digits; exact Hn | exact Hb].
    unfold dropped. cbn [snd]. rewrite sent_after_send, Hw.
    intros E. rewrite <- (app_nil_r (sent c)) in E at 2.
    apply app_inv_head in E. discriminate E.
Qed.

Lemma goto_mem_writes_iff_witness :
  let c := Controller.init silent_line None in
  sent (snd (Controller.goto_mem 42 c)) <> sent c
  /\ Controller.goto_mem 100 c = (Raise (ValueError ChrNotInRange), c)
  /\ Controller.goto_mem (-3) c
     = (Raise (ValueError (InvalidMemoryNumber (-3))), c).
Proof.
  intros c.
  destruct (goto_mem_writes_iff 42 c eq_refl) as (H42 & _ & _).
  destruct (goto_mem_writes_iff 100 c eq_refl) as (_ & _ & H100).
  destruct (goto_mem_writes_iff (-3) c eq_refl) as (_ & Hneg & _).
  split; [apply H42; lia|]. split; [apply H100; reflexivity|].
  apply Hneg. lia.
Defined.

(** X10.  Two different memory numbers between 1 and 99 make [goto_mem]
    write different bytes. *)
Theorem goto_mem_frames_differ (n m : Z) (c : Controller.t) :
  1 <= n <= 99 ->
  1 <= m <= 99 ->
  n <> m ->
  write_succeeds c = true ->
  sent (snd (Controller.goto_mem n c)) <> sent (snd (Controller.goto_mem m c)).
Proof.
  intros Hn Hm Hne Hw.
  destruct (bcd_nibbles n) as (Hrn & _); [lia|].
  destruct (bcd_nibbles m) as (Hrm & _); [lia|].
  destruct (chr_in_range (bcd n) Hrn) as (bn & _ & Hbn).
  destruct (chr_in_range (bcd m) Hrm) as (bm & _ & Hbm).
  rewrite (goto_mem_sends n (bcd n) bn c);
    [| lia | apply int_0x_two_digits; exact Hn | exact Hbn].
  rewrite (goto_mem_sends m (bcd m) bm c);
    [| lia | apply int_0x_two_digits; exact Hm | exact Hbm].
  unfold dropped. cbn [snd]. rewrite !sent_after_send, Hw.
  intros E. apply app_inv_head in E. injection E as E.
  apply Hne. apply bcd_injective; [lia | lia |].
  rewrite <- Hbn, <- Hbm, E. reflexivity.
Qed.

Lemma goto_mem_frames_differ_witness :
  let c := Controller.init silent_line None in
  sent (snd (Controller.goto_mem 12 c)) <> sent (snd (Controller.goto_mem 21 c)).
Proof.
  intros c.
  apply (goto_mem_frames_differ 12 21 c); [lia | lia | lia | reflexivity].
Defined.

(** X11.  For every bank number from 1 to 6, [select_bank] writes
    [FE FE 88 E0 08 A0 n FD], the data byte being the number itself, and
    returns when no read raises; for every other integer it raises the
    invalid-bank-number [ValueError] with the controller exactly as it
    was. *)
Theorem select_bank_all (n : Z) (c : Controller.t) :
  (1 <= n <= 6 ->
   write_succeeds c = true ->
   exists b : byte,
     ord b = n
     /\ sent (snd (Controller.select_bank n c))
        = (sent c ++ [xfe; xfe; x88; xe0; x08; xa0; b; xfd])%list
     /\ (reads_succeed c = true ->
           fst (Controller.select_bank n c) = Return tt))
  /\ (n < 1 \/ 6 < n ->
      Controller.select_bank n c
      = (Raise (ValueError (InvalidBankNumber n)), c)).
Proof.
  split.
  - intros Hn Hw.
    destruct (chr_in_range n) as (b & _ & Hb); [lia|].
    exists b. split; [exact Hb|].
    rewrite (select_bank_sends n b c Hn Hb).
    destruct (dropped_send_frame [xfe; xfe; x88; xe0; x08; xa0; b; xfd] c)
      as (_ & Hok & _).
    exact (Hok Hw).
  - intros H. apply select_bank_rejects. lia.
Qed.

Lemma select_bank_all_witness :
  let c := Controller.init (answering_line ack) None in
  (exists b : byte,
      ord b = 6
      /\ sent (snd (Controller.select_bank 6 c))
         = [xfe; xfe; x88; xe0; x08; xa0; b; xfd])
  /\ Controller.select_bank (-1) c
     = (Raise (ValueError (InvalidBankNumber (-1))), c).
Proof.
  intros c. destruct (select_bank_all 6 c) as [H6 _].
  destruct (select_bank_all (-1) c) as [_ Hneg].
  destruct H6 as (b & Hb & Hsent & _); [lia | reflexivity |].
  split; [exists b; split; [exact Hb | exact Hsent] | apply Hneg; lia].
Defined.

(** X12.  At a baud rate that is not a key of the table of [turn_on], the
    lookup raises [KeyError] before anything is sent: the controller is
    exactly as it was. *)
Theorem turn_on_unknown_baud_rate (c : Controller.t) :
  ~ In (Connection.BAUD (Controller.connection c))
       [300; 1200; 4800; 9600; 19200] ->
  Controller.turn_on c = (Raise KeyError, c).
Proof.
  intros H. apply turn_on_unknown_baud.
  cbn [In] in H. unfold Controller.repeatedFEs, Controller.getitem.
  repeat match goal with
         | |- context [?k =? ?b] =>
             replace (k =? b) with false by (symmetry; apply Z.eqb_neq; lia)
         end.
  reflexivity.
Qed.

Lemma turn_on_unknown_baud_rate_witness :
  let c := Controller.set_connection (Controller.init silent_line None)
             {| Connection.BAUD := 115200; Connection.PORT := "/dev/ttyUSB0";
                Connection._port := silent_line |} in
  Controller.turn_on c = (Raise KeyError, c).
Proof.
  intros c. apply (turn_on_unknown_baud_rate c).
  cbn. lia.
Defined.

(** X13.  [turn_off] writes exactly [FE FE 88 E0 18 00 FD] when the write
    succeeds, and then returns if no read raises; when the write fails it
    raises with nothing written; the radio is as it was in every case. *)
Theorem turn_off_frame (c : Controller.t) :
  Controller.radio (snd (Controller.turn_off c)) = Controller.radio c
  /\ (write_succeeds c = true ->
        sent (snd (Controller.turn_off c))
        = (sent c ++ [xfe; xfe; x88; xe0; x18; x00; xfd])%list
        /\ (reads_succeed c = true -> fst (Controller.turn_off c) = Return tt))
  /\ (write_succeeds c = false ->
        fst (Controller.turn_off c) = Raise SerialException
        /\ sent (snd (Controller.turn_off c)) = sent c).
Proof.
  rewrite turn_off_sends.
  exact (dropped_send_frame [xfe; xfe; x88; xe0; x18; x00; xfd] c).
Qed.

Lemma turn_off_frame_witness :
  let c := Controller.init silent_line None in
  sent (snd (Controller.turn_off c)) = [xfe; xfe; x88; xe0; x18; x00; xfd]
  /\ fst (Controller.turn_off c) = Return tt.
Proof.
  intros c. destruct (turn_off_frame c) as (_ & Hok & _).
  destruct (Hok eq_refl) as [Hsent Hret].
  split; [exact Hsent | exact (Hret eq_refl)].
Defined.

(** X14.  Whatever the operation and its arguments, either nothing is
    written or what is written is a run of [0xFE] wake-up bytes, empty
    unless the operation is [turn_on], followed by one frame
    [FE FE 88 E0 <body> FD] whose body has 2 to 4 bytes, all below [0xFD]:
    no operation writes a terminator anywhere but at the end of its frame. *)
Theorem perform_writes_one_frame (op : Controller.operation) (c : Controller.t) :
  sent (snd (Controller.perform op c)) = sent c
  \/ exists wake body : list byte,
       sent (snd (Controller.perform op c))
       = (sent c ++ wake ++ [xfe; xfe; x88; xe0] ++ body ++ [xfd])%list
       /\ Forall (eq xfe) wake
       /\ (op = Controller.TurnOn \/ wake = [])
       /\ Forall (fun b => ord b < 0xFD) body
       /\ (2 <= List.length body <= 4)%nat.
Proof.
  assert (Hsend : forall wake body : list byte,
            Forall (eq xfe) wake ->
            (op = Controller.TurnOn \/ wake = []) ->
            Forall (fun b => ord b < 0xFD) body ->
            (2 <= List.length body <= 4)%nat ->
            forall r : outcome unit * Controller.t,
            sent (snd r)
            = sent (snd (Controller.send
                           (frame (wake ++ [xfe; xfe; x88; xe0] ++ body ++ [xfd]))
                           c)) ->
            sent (snd r) = sent c
            \/ exists wake body : list byte,
                 sent (snd r)
                 = (sent c ++ wake ++ [xfe; xfe; x88; xe0] ++ body ++ [xfd])%list
                 /\ Forall (eq xfe) wake
                 /\ (op = Controller.TurnOn \/ wake = [])
                 /\ Forall (fun b => ord b < 0xFD) body
                 /\ (2 <= List.length body <= 4)%nat).
  { intros wake body H1 H2 H3 H4 r ->. rewrite sent_after_send.
    destruct (write_succeeds c); [right | left; reflexivity].
    exists wake, body. repeat split; try assumption; lia. }
  assert (Hlt : forall b z, ord b = z -> z < 0xFD -> ord b < 0xFD)
    by (intros b z -> H; exact H).
  destruct op as [ | |n|n| | | | ]; cbn [Controller.perform].
  - destruct (Controller.getitem Controller.repeatedFEs
                (Connection.BAUD (Controller.connection c))) as [count|e] eqn:E.
    + rewrite (turn_on_sends c count E).
      apply (Hsend (repeat xfe (Z.to_nat count)) [x18; x01]);
        [ | left; reflexivity | repeat constructor | cbn; lia | reflexivity].
      apply Forall_forall. intros x Hx. symmetry. exact (repeat_spec _ _ _ Hx).
    + left. rewrite (turn_on_unknown_baud c e E). reflexivity.
  - rewrite turn_off_sends.
    apply (Hsend [] [x18; x00]);
      [constructor | right; reflexivity | repeat constructor | cbn; lia
       | reflexivity].
  - destruct (Z_lt_le_dec n 1) as [Hlo|Hlo];
      [left; rewrite goto_mem_rejects by lia; reflexivity|].
    destruct (Z_lt_le_dec 100 n) as [Hhi|Hhi];
      [left; rewrite goto_mem_rejects by lia; reflexivity|].
    destruct (Z.eq_dec n 100) as [->|Hn].
    + left. rewrite (goto_mem_unencodable 100 256) by (reflexivity || lia || long_lia).
      reflexivity.
    + destruct (bcd_nibbles n) as (Hrange & Hhigh & Hlow); [lia|].
      destruct (chr_in_range (bcd n) Hrange) as (b & _ & Hb).
      rewrite (goto_mem_sends n (bcd n) b c);
        [| lia | apply int_0x_two_digits; lia | exact Hb].
      apply (Hsend [] [x08; b]);
        [constructor | right; reflexivity | | cbn; lia | reflexivity].
      repeat constructor. apply (Hlt b (bcd n) Hb).
      unfold bcd.
      assert (n / 10 < 10) by (apply Z.div_lt_upper_bound; lia).
      assert (0 <= n mod 10 < 10) by (apply Z.mod_pos_bound; lia).
      lia.
  - destruct (Z_lt_le_dec n 1) as [Hlo|Hlo];
      [left; rewrite select_bank_rejects by lia; reflexivity|].
    destruct (Z_lt_le_dec 6 n) as [Hhi|Hhi];
      [left; rewrite select_bank_rejects by lia; reflexivity|].
    destruct (chr_in_range n) as (b & _ & Hb); [lia|].
    rewrite (select_bank_sends n b c) by (lia || exact Hb).
    apply (Hsend [] [x08; xa0; b]);
      [constructor | right; reflexivity | | cbn; lia | reflexivity].
    repeat constructor. apply (Hlt b n Hb). lia.
  - rewrite rx_sends.
    apply (Hsend [] [x1c; x00; x00]);
      [constructor | right; reflexivity | repeat constructor | cbn; lia
       | reflexivity].
  - rewrite tx_sends.
    apply (Hsend [] [x1c; x00; x01]);
      [constructor | right; reflexivity | repeat constructor | cbn; lia
       | reflexivity].
  - rewrite data_mode_on_sends.
    apply (Hsend [] [x1a; x06; x01; x02]);
      [constructor | right; reflexivity | repeat constructor | cbn; lia |].
    cbn [app].
    destruct (Controller.send
                (frame [xfe; xfe; x88; xe0; x1a; x06; x01; x02; xfd]) c)
      as [[resp|e] c']; reflexivity.
  - rewrite data_mode_off_sends.
    apply (Hsend [] [x1a; x06; x00; x00]);
      [constructor | right; reflexivity | repeat constructor | cbn; lia |].
    cbn [app].
    destruct (Controller.send
                (frame [xfe; xfe; x88; xe0; x1a; x06; x00; x00; xfd]) c)
      as [[resp|e] c']; reflexivity.
Qed.

(** ** cmd_from_binary on every list *)

(** X15.  [cmd_from_binary] raises on every list: the invalid-preamble
    [ValueError] when the first two items are not [0xFE, 0xFE], [IndexError]
    when the list is the preamble alone, and the invalid-addresses
    [ValueError] in every other case, a well-formed response included; it
    never returns. *)
Theorem cmd_from_binary_outcome (binary_string : list pyval) :
  cmd_from_binary binary_string
  = if pylist_eqb (firstn 2 binary_string) Command.PREAMBLE then
      if (List.length binary_string <=? 2)%nat then Raise IndexError
      else Raise (ValueError InvalidAddresses)
    else Raise (ValueError InvalidPreamble).
Proof.
  unfold cmd_from_binary, cmd_from_binary_local, py_ne, py_eq.
  destruct (pylist_eqb (firstn 2 binary_string) Command.PREAMBLE) eqn:E;
    [|reflexivity].
  cbn [negb].
  destruct binary_string as [|a [|b [|x l]]]; try discriminate E; reflexivity.
Qed.

(** ** The operator *)

Lemma call_dropped (bytes : list byte) (m : M Controller.t unit)
  (self : Operator.t) :
  m (Operator.controller self)
  = dropped (Controller.send (frame bytes) (Operator.controller self)) ->
  let c := Operator.controller self in
  let r := Operator.call m self in
  Operator.stdin (snd r) = Operator.stdin self
  /\ Controller.radio (Operator.controller (snd r)) = Controller.radio c
  /\ (write_succeeds c = true ->
        sent (Operator.controller (snd r)) = (sent c ++ bytes)%list
        /\ (reads_succeed c = true -> fst r = Operator.Finished))
  /\ (write_succeeds c = false ->
        fst r = Operator.Raised SerialException
        /\ sent (Operator.controller (snd r)) = sent c).
Proof.
  intros E. cbn zeta. unfold Operator.call. rewrite E.
  destruct (dropped_send_frame bytes (Operator.controller self))
    as (Hradio & Hok & Hfail).
  cbn zeta in *.
  destruct (dropped (Controller.send (frame bytes) (Operator.controller self)))
    as [[[]|e] c1]; cbn [fst snd Operator.controller Operator.stdin] in *.
  - split; [reflexivity|]. split; [exact Hradio|]. split.
    + intros Hw. destruct (Hok Hw) as [Hs _]. split; [exact Hs | reflexivity].
    + intros Hw. destruct (Hfail Hw) as [[=] _].
  - split; [reflexivity|]. split; [exact Hradio|]. split.
    + intros Hw. destruct (Hok Hw) as [Hs Hr]. split; [exact Hs|].
      intros Hrd. discriminate (Hr Hrd).
    + intros Hw. destruct (Hfail Hw) as [[= ->] Hs].
      split; [reflexivity | exact Hs].
Qed.

(** X16.  [transmit] keys the radio, waits for a line, and unkeys.  When
    the write of [tx] fails, it raises at once: nothing is written and no
    line is read.  When [tx] goes through and the input is at its end,
    [raw_input] raises [EOFError] and the receive frame is never written.
    When [tx] goes through, a line is there and [rx] goes through, the line
    is consumed whatever it says, and what was written is
    [FE FE 88 E0 1C 00 01 FD] followed by [FE FE 88 E0 1C 00 00 FD]. *)
Theorem transmit_sequence (self : Operator.t) :
  let c := Operator.controller self in
  let c1 := snd (Controller.tx c) in
  let r := Operator.transmit self in
  (write_succeeds c = false ->
     fst r = Operator.Raised SerialException
     /\ sent (Operator.controller (snd r)) = sent c
     /\ Operator.stdin (snd r) = Operator.stdin self)
  /\ (write_succeeds c = true -> reads_succeed c = true ->
      Operator.stdin self = [] ->
      fst r = Operator.EOFError
      /\ sent (Operator.controller (snd r))
         = (sent c ++ [xfe; xfe; x88; xe0; x1c; x00; x01; xfd])%list)
  /\ (write_succeeds c = true -> reads_succeed c = true ->
      write_succeeds c1 = true -> reads_succeed c1 = true ->
      forall line rest, Operator.stdin self = line :: rest ->
      fst r = Operator.Finished
      /\ Operator.stdin (snd r) = rest
      /\ Controller.radio (Operator.controller (snd r)) = Controller.radio c
      /\ sent (Operator.controller (snd r))
         = (sent c ++ [xfe; xfe; x88; xe0; x1c; x00; x01; xfd]
                   ++ [xfe; xfe; x88; xe0; x1c; x00; x00; xfd])%list).
Proof.
  cbn zeta.
  destruct (call_dropped [xfe; xfe; x88; xe0; x1c; x00; x01; xfd]
              Controller.tx self (tx_sends _))
    as (Hin & Hradio & Hok & Hfail).
  cbn zeta in *.
  assert (Hc1 : Operator.controller (snd (Operator.call Controller.tx self))
                = snd (Controller.tx (Operator.controller self))).
  { unfold Operator.call.
    destruct (Controller.tx (Operator.controller self)) as [[[]|e] c1];
      reflexivity. }
  unfold Operator.transmit.
  destruct (Operator.call Controller.tx self) as [e1 self1] eqn:E1.
  cbn [fst snd] in *.
  split; [|split].
  - intros Hw. destruct (Hfail Hw) as [-> Hs].
    cbn [fst snd]. split; [reflexivity|]. split; assumption.
  - intros Hw Hr Hnil. destruct (Hok Hw) as [Hs Hf]. rewrite (Hf Hr).
    unfold Operator.raw_input. rewrite Hin, Hnil. cbn [fst snd].
    split; [reflexivity | exact Hs].
  - intros Hw Hr Hw1 Hr1 line rest Hline.
    destruct (Hok Hw) as [Hs Hf]. rewrite (Hf Hr).
    unfold Operator.raw_input. rewrite Hin, Hline.
    match goal with
    | |- context [Operator.call Controller.rx ?s] =>
        destruct (call_dropped [xfe; xfe; x88; xe0; x1c; x00; x00; xfd]
                    Controller.rx s (rx_sends _))
          as (Hin2 & Hradio2 & Hok2 & _)
    end.
    cbn zeta in *. cbn [Operator.controller Operator.stdin] in *.
    rewrite <- Hc1 in Hw1, Hr1.
    destruct (Hok2 Hw1) as [Hs2 Hf2].
    split; [exact (Hf2 Hr1)|]. split; [exact Hin2|].
    split; [rewrite Hradio2; exact Hradio|].
    rewrite Hs2, Hs, <- app_assoc. reflexivity.
Qed.

Lemma transmit_sequence_witness :
  let self := {| Operator.controller := Controller.init silent_line None;
                 Operator.stdin := ["q"%string; "d"%string] |} in
  fst (Operator.transmit self) = Operator.Finished
  /\ Operator.stdin (snd (Operator.transmit self)) = ["d"%string]
  /\ sent (Operator.controller (snd (Operator.transmit self)))
     = [xfe; xfe; x88; xe0; x1c; x00; x01; xfd;
        xfe; xfe; x88; xe0; x1c; x00; x00; xfd].
Proof.
  intros self.
  destruct (transmit_sequence self) as (_ & _ & H).
  assert (Hw : write_succeeds (Operator.controller self) = true)
    by (vm_compute; reflexivity).
  assert (Hr : reads_succeed (Operator.controller self) = true)
    by (vm_compute; reflexivity).
  assert (Hw1 : write_succeeds (snd (Controller.tx (Operator.controller self)))
                = true) by (vm_compute; reflexivity).
  assert (Hr1 : reads_succeed (snd (Controller.tx (Operator.controller self)))
                = true) by (vm_compute; reflexivity).
  destruct (H Hw Hr Hw1 Hr1 "q"%string ["d"%string] eq_refl)
    as (H1 & H2 & _ & H4).
  split; [exact H1|]. split; [exact H2 | exact H4].
Defined.

Lemma call_data_mode (bytes : list byte) (b : bool) (m : M Controller.t unit)
  (self : Operator.t) :
  m (Operator.controller self)
  = match Controller.send (frame bytes) (Operator.controller self) with
    | (Return _, c') =>
        (Return tt,
         Controller.set_radio c' (Radio.set_data_mode (Controller.radio c') b))
    | (Raise e, c') => (Raise e, c')
    end ->
  let c := Operator.controller self in
  let r := Operator.call m self in
  Operator.stdin (snd r) = Operator.stdin self
  /\ (write_succeeds c = true ->
        sent (Operator.controller (snd r)) = (sent c ++ bytes)%list
        /\ (reads_succeed c = true ->
              fst r = Operator.Finished
              /\ Controller.radio (Operator.controller (snd r))
                 = Radio.set_data_mode (Controller.radio c) b))
  /\ (write_succeeds c = false ->
        fst r = Operator.Raised SerialException
        /\ sent (Operator.controller (snd r)) = sent c
        /\ Controller.radio (Operator.controller (snd r)) = Controller.radio c).
Proof.
  intros E. cbn zeta. unfold Operator.call. rewrite E.
  destruct (data_mode_sends bytes b (Operator.controller self))
    as (Hok & Hfail & _).
  cbn zeta in *.
  destruct (Controller.send (frame bytes) (Operator.controller self))
    as [[resp|e] c1]; cbn [fst snd Operator.controller Operator.stdin] in *.
  - split; [reflexivity|]. split.
    + intros Hw. destruct (Hok Hw) as [Hs Hr]. split; [exact Hs|].
      intros Hrd. split; [reflexivity | apply Hr; exact Hrd].
    + intros Hw. destruct (Hfail Hw) as [[=] _].
  - split; [reflexivity|]. split.
    + intros Hw. destruct (Hok Hw) as [Hs Hr]. split; [exact Hs|].
      intros Hrd. destruct (Hr Hrd) as [[=] _].
    + intros Hw. destruct (Hfail Hw) as ([= ->] & Hs & Hrad).
      repeat split; assumption.
Qed.

(** X17.  The command [d] toggles the data mode: when the write and the
    reads succeed, the frame written is the one of [data_mode_off] if the
    radio was in data mode and the one of [data_mode_on] if it was not, and
    [data_mode] is negated; when the write fails the call ends with the
    port's exception and the radio is as it was.  No line is read. *)
Theorem dispatch_d_toggles (py_int : string -> outcome Z) (self : Operator.t) :
  let c := Operator.controller self in
  let r := Operator.dispatch py_int "d" self in
  Operator.stdin (snd r) = Operator.stdin self
  /\ (write_succeeds c = true ->
        sent (Operator.controller (snd r))
        = (sent c ++ [xfe; xfe; x88; xe0; x1a; x06]
                  ++ (if Radio.data_mode (Controller.radio c)
                      then [x00; x00] else [x01; x02])
                  ++ [xfd])%list
        /\ (reads_succeed c = true ->
              fst r = Operator.Finished
              /\ Controller.radio (Operator.controller (snd r))
                 = Radio.set_data_mode (Controller.radio c)
                     (negb (Radio.data_mode (Controller.radio c)))))
  /\ (write_succeeds c = false ->
        fst r = Operator.Raised SerialException
        /\ sent (Operator.controller (snd r)) = sent c
        /\ Controller.radio (Operator.controller (snd r)) = Controller.radio c).
Proof.
  cbn zeta. unfold Operator.dispatch. cbn [String.eqb Ascii.eqb Bool.eqb
    String.prefix].
  change (("d" =? "t")%string) with false.
  change (String.prefix "m" "d") with false.
  change (("d" =? "d")%string) with true. cbv iota.
  destruct (Radio.data_mode (Controller.radio (Operator.controller self))).
  - exact (call_data_mode [xfe; xfe; x88; xe0; x1a; x06; x00; x00; xfd] false
             Controller.data_mode_off self (data_mode_off_sends _)).
  - exact (call_data_mode [xfe; xfe; x88; xe0; x1a; x06; x01; x02; xfd] true
             Controller.data_mode_on self (data_mode_on_sends _)).
Qed.

Lemma dispatch_d_toggles_witness :
  let self := {| Operator.controller := Controller.init silent_line None;
                 Operator.stdin := [] |} in
  let r := Operator.dispatch (fun _ => Raise (ValueError InvalidLiteral))
             "d" self in
  fst r = Operator.Finished
  /\ Radio.data_mode (Controller.radio (Operator.controller (snd r))) = false
  /\ sent (Operator.controller (snd r))
     = [xfe; xfe; x88; xe0; x1a; x06; x00; x00; xfd].
Proof.
  intros self r.
  destruct (dispatch_d_toggles (fun _ => Raise (ValueError InvalidLiteral)) self)
    as (_ & Hok & _).
  assert (Hw : write_succeeds (Operator.controller self) = true)
    by (vm_compute; reflexivity).
  assert (Hr : reads_succeed (Operator.controller self) = true)
    by (vm_compute; reflexivity).
  destruct (Hok Hw) as [Hs Hret]. destruct (Hret Hr) as [Hf Hrad].
  split; [exact Hf|]. split; [|exact Hs].
  unfold r. rewrite Hrad. reflexivity.
Defined.

(** ** The loop of operate *)

Lemma dispatch_ignored (py_int : string -> outcome Z) (cmd : string)
  (self : Operator.t) :
  ignored cmd = true ->
  (cmd =? "q")%string = false
  /\ Operator.dispatch py_int cmd self = (Operator.Finished, self).
Proof.
  unfold ignored, Operator.dispatch. intros H.
  apply andb_true_iff in H. destruct H as [H Hd].
  apply andb_true_iff in H. destruct H as [H Hm].
  apply andb_true_iff in H. destruct H as [Hq Ht].
  apply negb_true_iff in Hq, Ht, Hm, Hd.
  rewrite Ht, Hm, Hd. split; [exact Hq | reflexivity].
Qed.

Lemma last_default {A : Type} (l : list A) :
  forall a d d' : A, last (a :: l) d = last (a :: l) d'.
Proof.
  induction l as [|b l IH]; intros a d d'; [reflexivity|].
  change (last (b :: l) d = last (b :: l) d'). apply IH.
Qed.

Lemma loop_ignored (py_int : string -> outcome Z) (cmds : list string) :
  forall (fuel : nat) (cmd : string) (c : Controller.t) (rest : list string),
    (List.length cmds < fuel)%nat ->
    (cmd =? "q")%string = false ->
    forallb ignored cmds = true ->
    Operator.loop py_int fuel cmd
      {| Operator.controller := c; Operator.stdin := (cmds ++ rest)%list |}
    = Operator.loop py_int (fuel - List.length cmds)
        (last cmds cmd)
        {| Operator.controller := c; Operator.stdin := rest |}.
Proof.
  induction cmds as [|x cmds IH]; intros fuel cmd c rest Hfuel Hq Hall.
  - cbn [List.length app last]. rewrite Nat.sub_0_r. reflexivity.
  - cbn [forallb] in Hall. apply andb_true_iff in Hall.
    destruct Hall as [Hx Hall].
    destruct (dispatch_ignored py_int x
                {| Operator.controller := c;
                   Operator.stdin := (cmds ++ rest)%list |} Hx)
      as [Hxq Hdisp].
    destruct fuel as [|fuel]; [cbn in Hfuel; lia|].
    cbn [Operator.loop]. rewrite Hq.
    cbn [Operator.raw_input Operator.stdin Operator.controller app].
    rewrite Hdisp.
    rewrite (IH fuel x c rest); [| cbn in Hfuel; lia | exact Hxq | exact Hall].
    cbn [List.length Nat.sub].
    f_equal. destruct cmds as [|y cmds]; [reflexivity|].
    change (last (x :: y :: cmds) cmd) with (last (y :: cmds) cmd).
    apply last_default.
Qed.

Lemma last_not_q (cmds : list string) :
  forall d : string,
    (d =? "q")%string = false ->
    forallb ignored cmds = true ->
    (last cmds d =? "q")%string = false.
Proof.
  induction cmds as [|x cmds IH]; intros d Hd Hall; [exact Hd|].
  cbn [forallb] in Hall. apply andb_true_iff in Hall. destruct Hall as [Hx Hall].
  destruct cmds as [|y cmds].
  - cbn. unfold ignored in Hx.
    destruct (x =? "q")%string; [discriminate Hx | reflexivity].
  - change (last (x :: y :: cmds) d) with (last (y :: cmds) d).
    apply IH; assumption.
Qed.

(** X18.  [operate] does nothing with the lines that are not [q], [t], [d]
    and do not start with [m]: on any number of such lines followed by [q]
    it returns with nothing written, the controller as it was made, and the
    lines after [q] unread. *)
Theorem operate_quits (py_int : string -> outcome Z) (line : Serial.t)
  (cmds rest : list string) :
  forallb ignored cmds = true ->
  Operator.operate py_int line (cmds ++ "q"%string :: rest)
  = (Operator.Finished,
     {| Operator.controller := Controller.init line None;
        Operator.stdin := rest |}).
Proof.
  intros Hall. unfold Operator.operate.
  rewrite (loop_ignored py_int cmds); [| | reflexivity | exact Hall].
  2: { rewrite length_app. cbn. lia. }
  rewrite length_app. cbn [List.length].
  replace (S (List.length cmds + S (List.length rest)) - List.length cmds)%nat
    with (S (S (List.length rest))) by lia.
  assert (Hlast : (last cmds "" =? "q")%string = false)
    by (apply last_not_q; [reflexivity | exact Hall]).
  cbn [Operator.loop]. rewrite Hlast.
  cbn [Operator.raw_input Operator.stdin Operator.controller].
  unfold Operator.dispatch.
  change (("q" =? "t")%string) with false.
  change (String.prefix "m" "q") with false.
  change (("q" =? "d")%string) with false. cbv iota.
  change (("q" =? "q")%string) with true. reflexivity.
Qed.

Lemma operate_quits_witness :
  Operator.operate (fun _ => Raise (ValueError InvalidLiteral)) silent_line
    ["x"; "hello"; ""; "q"; "d"]%string
  = (Operator.Finished,
     {| Operator.controller := Controller.init silent_line None;
        Operator.stdin := ["d"%string] |}).
Proof.
  apply (operate_quits (fun _ => Raise (ValueError InvalidLiteral)) silent_line
           ["x"; "hello"; ""]%string ["d"%string]).
  reflexivity.
Defined.

(** X19.  When the input ends before a [q], all its lines being ones that
    [operate] does nothing with, [operate] ends with the [EOFError] of
    [raw_input], with nothing written. *)
Theorem operate_end_of_input (py_int : string -> outcome Z) (line : Serial.t)
  (cmds : list string) :
  forallb ignored cmds = true ->
  Operator.operate py_int line cmds
  = (Operator.EOFError,
     {| Operator.controller := Controller.init line None;
        Operator.stdin := [] |}).
Proof.
  intros Hall. unfold Operator.operate.
  rewrite <- (app_nil_r cmds) at 2.
  rewrite (loop_ignored py_int cmds); [| lia | reflexivity | exact Hall].
  replace (S (List.length cmds) - List.length cmds)%nat with 1%nat by lia.
  cbn [Operator.loop].
  rewrite (last_not_q cmds "" eq_refl Hall). reflexivity.
Qed.

Lemma operate_end_of_input_witness :
  Operator.operate (fun _ => Raise (ValueError InvalidLiteral)) silent_line
    ["x"; "quit"]%string
  = (Operator.EOFError,
     {| Operator.controller := Controller.init silent_line None;
        Operator.stdin := [] |}).
Proof.
  apply (operate_end_of_input (fun _ => Raise (ValueError InvalidLiteral))
           silent_line ["x"; "quit"]%string).
  reflexivity.
Defined.

Lemma call_stdin {A : Type} (m : M Controller.t A) (self : Operator.t) :
  Operator.stdin (snd (Operator.call m self)) = Operator.stdin self
  /\ fst (Operator.call m self) <> Operator.OutOfFuel.
Proof.
  unfold Operator.call.
  destruct (m (Operator.controller self)) as [[a|e] c];
    split; (reflexivity || discriminate).
Qed.

Lemma transmit_stdin (self : Operator.t) :
  (List.length (Operator.stdin (snd (Operator.transmit self)))
   <= List.length (Operator.stdin self))%nat
  /\ fst (Operator.transmit self) <> Operator.OutOfFuel.
Proof.
  unfold Operator.transmit.
  destruct (call_stdin Controller.tx self) as [Hs Hf].
  destruct (Operator.call Controller.tx self) as [e self1].
  cbn [fst snd] in *.
  destruct e; cbn [fst snd]; try (rewrite Hs; split; [lia | discriminate]).
  - unfold Operator.raw_input.
    destruct (Operator.stdin self1) as [|l rest] eqn:E; cbn [fst snd].
    + rewrite E, <- Hs. cbn. split; [lia | discriminate].
    + match goal with
      | |- context [Operator.call Controller.rx ?s] =>
          destruct (call_stdin Controller.rx s) as [Hs2 Hf2]
      end.
      rewrite Hs2, <- Hs. cbn. split; [lia | exact Hf2].
  - exfalso. apply Hf. reflexivity.
Qed.

Lemma dispatch_stdin (py_int : string -> outcome Z) (cmd : string)
  (self : Operator.t) :
  (List.length (Operator.stdin (snd (Operator.dispatch py_int cmd self)))
   <= List.length (Operator.stdin self))%nat
  /\ fst (Operator.dispatch py_int cmd self) <> Operator.OutOfFuel.
Proof.
  unfold Operator.dispatch.
  destruct (cmd =? "t")%string; [apply transmit_stdin|].
  destruct (String.prefix "m" cmd).
  { destruct (py_int (Operator.from_1 cmd)) as [n|e].
    - destruct (call_stdin (Controller.goto_mem n) self) as [-> H].
      split; [lia | exact H].
    - cbn. split; [lia | discriminate]. }
  destruct (cmd =? "d")%string; [|cbn; split; [lia | discriminate]].
  destruct (Radio.data_mode (Controller.radio (Operator.controller self))).
  - destruct (call_stdin Controller.data_mode_off self) as [-> H].
    split; [lia | exact H].
  - destruct (call_stdin Controller.data_mode_on self) as [-> H].
    split; [lia | exact H].
Qed.

Lemma loop_fuel (py_int : string -> outcome Z) (fuel : nat) :
  forall (cmd : string) (self : Operator.t),
    (List.length (Operator.stdin self) < fuel)%nat ->
    fst (Operator.loop py_int fuel cmd self) <> Operator.OutOfFuel
    /\ forall more : nat,
         Operator.loop py_int (fuel + more) cmd self
         = Operator.loop py_int fuel cmd self.
Proof.
  induction fuel as [|fuel IH]; intros cmd self Hlen; [lia|].
  cbn [Operator.loop Nat.add].
  destruct (cmd =? "q")%string; [split; [discriminate | reflexivity]|].
  unfold Operator.raw_input.
  destruct (Operator.stdin self) as [|l rest] eqn:E;
    [split; [discriminate | reflexivity]|].
  match goal with
  | |- context [Operator.dispatch py_int l ?s] =>
      destruct (dispatch_stdin py_int l s) as [Hs Hf];
      destruct (Operator.dispatch py_int l s) as [e self1]
  end.
  cbn [fst snd Operator.stdin] in *.
  destruct e; try (split; [discriminate | reflexivity]).
  - apply IH. cbn [List.length] in Hlen. lia.
  - exfalso. apply Hf. reflexivity.
Qed.

(** X20.  On every finite input [operate] comes to an end of its own: the
    iterations allowed are never used up, and allowing more of them changes
    nothing.  It ends by [q], by an exception, or by the end of the input. *)
Theorem operate_terminates (py_int : string -> outcome Z) (line : Serial.t)
  (input : list string) :
  fst (Operator.operate py_int line input) <> Operator.OutOfFuel
  /\ forall more : nat,
       Operator.loop py_int (S (List.length input) + more) ""
         {| Operator.controller := Controller.init line None;
            Operator.stdin := input |}
       = Operator.operate py_int line input.
Proof.
  unfold Operator.operate. apply loop_fuel. cbn. lia.
Qed.

(** X21.  A memory command whose number is outside 1..100 ends the program:
    the [ValueError] of [goto_mem] is not caught, nothing is written, and
    the lines after it are never read. *)
Theorem operate_invalid_memory (py_int : string -> outcome Z)
  (fuel : nat) (self : Operator.t) (digits : string) (rest : list string)
  (n : Z) :
  Operator.stdin self = String "m" digits :: rest ->
  py_int digits = Return n ->
  n < 1 \/ 100 < n ->
  Operator.loop py_int (S fuel) "" self
  = (Operator.Raised (ValueError (InvalidMemoryNumber n)),
     {| Operator.controller := Operator.controller self;
        Operator.stdin := rest |}).
Proof.
  intros Hin Hint Hn. cbn [Operator.loop].
  change (("" =? "q")%string) with false. cbv iota.
  unfold Operator.raw_input. rewrite Hin.
  unfold Operator.dispatch.
  assert (Ht : (String "m" digits =? "t")%string = false) by reflexivity.
  assert (Hm : String.prefix "m" (String "m" digits) = true).
  { cbn. destruct digits; reflexivity. }
  rewrite Ht, Hm. cbn [Operator.from_1]. rewrite Hint.
  unfold Operator.call. cbn [Operator.controller Operator.stdin].
  rewrite goto_mem_rejects by lia. reflexivity.
Qed.

Lemma operate_invalid_memory_witness :
  Operator.loop (fun _ => Return 101) 1 ""
    {| Operator.controller := Controller.init silent_line None;
       Operator.stdin := ["m101"; "q"]%string |}
  = (Operator.Raised (ValueError (InvalidMemoryNumber 101)),
     {| Operator.controller := Controller.init silent_line None;
        Operator.stdin := ["q"%string] |}).
Proof.
  apply (operate_invalid_memory (fun _ => Return 101) 0
           {| Operator.controller := Controller.init silent_line None;
              Operator.stdin := ["m101"; "q"]%string |} "101" ["q"%string] 101);
    [reflexivity | reflexivity | lia].
Defined.

(** ** The read loop of send_cmd (C9) *)

(** C9.  Whatever the line delivers, [send_cmd] on a frame of bytes whose
    write succeeds makes [k] calls of [read(1)] with [1 <= k <= 500]: none
    of the reads before the last was a terminator [0xFD] or an empty read
    (or a raise), and when [k < 500] the last read is one of these.  When
    the write fails it makes no read; and on any list it makes at most 500
    reads. *)
Theorem send_cmd_read_loop_bounded (out : list byte) (conn : Connection.t) :
  let p := Connection._port conn in
  let p' := Connection._port (snd (Connection.send_cmd (frame out) conn)) in
  (next_write_ok p = true ->
   exists k : nat,
     Serial.rx_calls p' = (Serial.rx_calls p + k)%nat
     /\ (1 <= k <= 500)%nat
     /\ (forall i : nat, (S i < k)%nat ->
           stops (Serial.rx_script p (Serial.rx_calls p + i)%nat) = false)
     /\ ((k < 500)%nat ->
           stops (Serial.rx_script p (Serial.rx_calls p + (k - 1))%nat) = true))
  /\ (next_write_ok p = false -> Serial.rx_calls p' = Serial.rx_calls p)
  /\ (forall cmd : list pyval,
        (Serial.rx_calls (Connection._port (snd (Connection.send_cmd cmd conn)))
         <= Serial.rx_calls p + 500)%nat).
Proof.
  cbn zeta. split; [|split].
  - intros Hw.
    destruct (send_cmd_reads out conn Hw) as (p1 & Hs & Hc & _ & ->).
    destruct (read_response_count 500 [] p1) as (k & Hk & Hle & Hpos & Hb & Hl).
    rewrite Hs, Hc in *.
    exists k. repeat split; try assumption; lia.
  - intros Hw. unfold Connection.send_cmd, within, bind, pure, ret.
    rewrite comprehension_hex_frame, comprehension_chr_frame.
    unfold next_write_ok in Hw. unfold Serial.write. rewrite Hw.
    destruct conn as [baud name q]. reflexivity.
  - intros cmd.
    destruct (send_cmd_port cmd conn) as (_ & _ & _ & _ & _ & H & _).
    cbn zeta in H. lia.
Qed.

Lemma send_cmd_read_loop_bounded_witness :
  let conn := Connection.connect (answering_line ack) in
  exists k : nat,
    Serial.rx_calls
      (Connection._port
         (snd (Connection.send_cmd
                 (frame [xfe; xfe; x88; xe0; x18; x00; xfd]) conn)))
    = (0 + k)%nat
    /\ (1 <= k <= 500)%nat
    /\ ((k < 500)%nat ->
          stops (Serial.rx_script (Connection._port conn) (0 + (k - 1))%nat)
          = true).
Proof.
  intros conn.
  destruct (send_cmd_read_loop_bounded
              [xfe; xfe; x88; xe0; x18; x00; xfd] conn) as (H & _ & _).
  destruct (H eq_refl) as (k & Hk & Hle & _ & Hlast).
  exists k. split; [exact Hk|]. split; [exact Hle | exact Hlast].
Defined.
